(** * Deep Research Agent: a shallow embedding of [main.py]

    The program is a Streamlit script that wires two hosted services
    together: the Firecrawl deep-research endpoint, wrapped by the tool
    [deep_research], and the agent runtime ([Runner.run]) that drives the
    two personas [research_agent] and [elaboration_agent].

    The services are not part of the program.  They are gathered in a
    record [World] of oracles, and every theorem quantifies over all
    worlds.  What the program itself does (the calls it makes, in which
    order, with which arguments, and what it renders) is recorded in a
    trace of [event]s.

    Conventions:
    - a Python [str] is represented by the string of its UTF-8 bytes, so
      that [str.encode()] is the identity on the representation;
    - a Python [int] is a [Z];
    - a Python exception is an [exn]: its class and the text of [str(e)];
    - a [with] block emits an enter and an exit event, the exit also when
      the body raises;
    - [asyncio.run] runs the coroutine to its end, so it does not show.

    The first part of the file models the tool, the two agents, the
    pipeline and the button handler.  The script around them (the page
    set-up, the reading of the two secrets, the header, the text input
    and the footer) is modelled after it, over the events of the page
    ([page_event]), with the secrets as one more oracle. *)

From Stdlib Require Import String Ascii List ZArith Bool.
Import ListNotations.
Local Open Scope string_scope.
Local Open Scope Z_scope.

(** ** Python values and exceptions *)

Module Py.

(** The exception classes the program can meet.  The first group derives
    from [Exception]; the second derives from [BaseException] only. *)
Inductive exn_class : Type :=
| KeyError
| TypeError
| ValueError
| ModelBehaviorError
| OtherException (name : string)
| KeyboardInterrupt
| SystemExit
| CancelledError
| OtherBaseException (name : string).

Record exn : Type := mkExn { exn_cls : exn_class; exn_str : string }.

(** [isinstance(e, Exception)] *)
Definition isinstance_Exception (e : exn) : bool :=
  match exn_cls e with
  | KeyError | TypeError | ValueError | ModelBehaviorError
  | OtherException _ => true
  | KeyboardInterrupt | SystemExit | CancelledError
  | OtherBaseException _ => false
  end.

(** Result of evaluating an expression or a call: a value or a raised
    exception. *)
Inductive outcome (A : Type) : Type :=
| Ret (a : A)
| Raise (e : exn).
Arguments Ret {A} a.
Arguments Raise {A} e.

#[local] Set Warnings "-register-all".

(** JSON-like values.  A dict is the list of its items in insertion
    order; [PObj] is any other object, known by its type name. *)
Inductive pyval : Type :=
| PNone
| PBool (b : bool)
| PInt (z : Z)
| PStr (s : string)
| PList (items : list pyval)
| PDict (items : list (string * pyval))
| PObj (type_name : string).

Fixpoint assoc (k : string) (items : list (string * pyval)) : option pyval :=
  match items with
  | [] => None
  | (k', v) :: rest => if String.eqb k k' then Some v else assoc k rest
  end.

(** [d.get(k)] on a dict, [None] on anything else. *)
Definition field (k : string) (v : pyval) : option pyval :=
  match v with
  | PDict items => assoc k items
  | _ => None
  end.

Definition not_subscriptable (type_name : string) : exn :=
  mkExn TypeError ("'" ++ type_name ++ "' object is not subscriptable").

(** [v[k]] for a string key [k]. *)
Definition subscr (v : pyval) (k : string) : outcome pyval :=
  match v with
  | PDict items =>
      match assoc k items with
      | Some x => Ret x
      | None => Raise (mkExn KeyError ("'" ++ k ++ "'"))
      end
  | PList _ =>
      Raise (mkExn TypeError "list indices must be integers or slices, not str")
  | PStr _ => Raise (mkExn TypeError "string indices must be integers, not 'str'")
  | PNone => Raise (not_subscriptable "NoneType")
  | PBool _ => Raise (not_subscriptable "bool")
  | PInt _ => Raise (not_subscriptable "int")
  | PObj t => Raise (not_subscriptable t)
  end.

(** Number of code points of a [str] given by its UTF-8 bytes: the bytes
    that are not continuation bytes [10xxxxxx]. *)
Fixpoint code_points (s : string) : Z :=
  match s with
  | EmptyString => 0
  | String c rest =>
      (if Z.eqb (Z.land (Z.of_nat (nat_of_ascii c)) 192) 128 then 0 else 1)
      + code_points rest
  end.

Definition has_no_len (type_name : string) : exn :=
  mkExn TypeError ("object of type '" ++ type_name ++ "' has no len()").

(** [len(v)] *)
Definition len (v : pyval) : outcome Z :=
  match v with
  | PList items => Ret (Z.of_nat (List.length items))
  | PDict items => Ret (Z.of_nat (List.length items))
  | PStr s => Ret (code_points s)
  | PNone => Raise (has_no_len "NoneType")
  | PBool _ => Raise (has_no_len "bool")
  | PInt _ => Raise (has_no_len "int")
  | PObj t => Raise (has_no_len t)
  end.

(** Truth value of a [str]: only the empty string is false. *)
Definition truthy (s : string) : bool :=
  match s with
  | EmptyString => false
  | String _ _ => true
  end.

(** [s.replace(old, new)] for a non-empty [old]: occurrences are replaced
    from left to right and do not overlap.  [skip] counts the characters
    of the occurrence just replaced that are still to be passed over. *)
Fixpoint replace_from (skip : nat) (old new s : string) : string :=
  match s with
  | EmptyString => EmptyString
  | String c rest =>
      match skip with
      | S k => replace_from k old new rest
      | O =>
          if String.prefix old s
          then new ++ replace_from (Nat.pred (String.length old)) old new rest
          else String c (replace_from O old new rest)
      end
  end.

Fixpoint intersperse (new s : string) : string :=
  match s with
  | EmptyString => new
  | String c rest => new ++ String c (intersperse new rest)
  end.

(** [s.encode()]: the UTF-8 bytes of [s]. *)
Definition encode (s : string) : list Byte.byte := list_byte_of_string s.

(** [sub in s] *)
Fixpoint contains (s sub : string) : bool :=
  String.prefix sub s
  || match s with
     | EmptyString => false
     | String _ rest => contains rest sub
     end.

Definition replace (s old new : string) : string :=
  match old with
  | EmptyString => intersperse new s
  | String _ _ => replace_from O old new s
  end.

End Py.
Import Py.

(** ** The trace and the effect monad *)

(** One progress notification of the research service. *)
Record activity : Type :=
  mkActivity { activity_type : string; activity_message : string }.

Inductive event : Type :=
(* Streamlit *)
| EvError (body : string)
| EvWarning (body : string)
| EvWrite (body : string)
| EvMarkdown (body : string)
| EvSpinnerEnter (text : string)
| EvSpinnerExit (text : string)
| EvExpanderEnter (label : string)
| EvExpanderExit (label : string)
| EvEmpty
| EvPlaceholderMarkdown (body : string)
| EvButton (label : string) (disabled : bool)
| EvDownloadButton (label : string) (content : list Byte.byte)
    (file_name : string) (mime : string)
(* Firecrawl *)
| EvFirecrawlApp (api_key : string)
| EvFirecrawlDeepResearch (query : string) (params : pyval)
(* agent runtime *)
| EvRunnerRun (agent : string) (input : string)
| EvRunnerReturn (agent : string) (final_output : string)
| EvToolInvoke (tool : string) (query : string)
    (max_depth time_limit max_urls : Z).

Definition trace := list event.

(** A computation reads the history so far and yields the events it adds
    and its outcome. *)
Definition M (A : Type) : Type := trace -> trace * outcome A.

Definition ret {A} (a : A) : M A := fun _ => ([], Ret a).

Definition raise {A} (e : exn) : M A := fun _ => ([], Raise e).

Definition lift {A} (o : outcome A) : M A := fun _ => ([], o).

Definition emit (ev : event) : M unit := fun _ => ([ev], Ret tt).

Definition history : M trace := fun h => ([], Ret h).

Definition bind {A B} (m : M A) (f : A -> M B) : M B :=
  fun h =>
    let '(t1, o) := m h in
    match o with
    | Ret a => let '(t2, o2) := f a (h ++ t1)%list in ((t1 ++ t2)%list, o2)
    | Raise e => (t1, Raise e)
    end.

Notation "x <- c1 ;; c2" := (bind c1 (fun x => c2))
  (at level 61, c1 at next level, right associativity).
Notation "c1 ;; c2" := (bind c1 (fun _ => c2))
  (at level 61, right associativity).

(** [try: body  except Exception as e: handler e] *)
Definition try_except_Exception {A} (body : M A) (handler : exn -> M A) : M A :=
  fun h =>
    let '(t1, o) := body h in
    match o with
    | Ret a => (t1, Ret a)
    | Raise e =>
        if isinstance_Exception e
        then let '(t2, o2) := handler e (h ++ t1)%list in ((t1 ++ t2)%list, o2)
        else (t1, Raise e)
    end.

(** [with cm: body], where entering and leaving [cm] only render. *)
Definition with_ {A} (enter leave : event) (body : M A) : M A :=
  fun h =>
    let '(t1, o) := body (h ++ [enter])%list in
    ((enter :: t1 ++ [leave])%list, o).

Definition for_each {A} (f : A -> M unit) : list A -> M unit :=
  fix go (l : list A) : M unit :=
    match l with
    | [] => ret tt
    | x :: rest => f x ;; go rest
    end.

(** ** Streamlit *)

Module st.

Definition error (body : string) : M unit := emit (EvError body).
Definition warning (body : string) : M unit := emit (EvWarning body).
Definition write (body : string) : M unit := emit (EvWrite body).
Definition markdown (body : string) : M unit := emit (EvMarkdown body).

Definition spinner {A} (text : string) (body : M A) : M A :=
  with_ (EvSpinnerEnter text) (EvSpinnerExit text) body.

Definition expander {A} (label : string) (body : M A) : M A :=
  with_ (EvExpanderEnter label) (EvExpanderExit label) body.

(** [st.empty()] returns a single-element placeholder; the script has one. *)
Definition empty : M unit := emit EvEmpty.
Definition placeholder_markdown (body : string) : M unit :=
  emit (EvPlaceholderMarkdown body).

(** [st.button(label, disabled=d)]: [clicked] is what the user did; a
    disabled button reports no click. *)
Definition button (label : string) (disabled clicked : bool) : M bool :=
  emit (EvButton label disabled) ;; ret (clicked && negb disabled)%bool.

(** [st.download_button(label, data, file_name=, mime=)] with [data] a
    [str]: the file offered holds [data.encode()]. *)
Definition download_button (label data file_name mime : string) : M unit :=
  emit (EvDownloadButton label (encode data) file_name mime).

End st.

(** ** The services outside the program *)

(** What one run of an agent does, as the runtime decides it: it asks for
    any number of tool calls, each answered by the tool's result, and
    ends with a final output or with an exception.  The runtime bounds
    the number of turns, so a run is a well-founded tree. *)
Inductive agent_run : Type :=
| FinalOutput (final_output : string)
| RuntimeRaise (e : exn)
| ToolCall (tool : string) (query : string)
    (max_depth time_limit max_urls : Z) (k : pyval -> agent_run).

Record World : Type := mkWorld {
  (* st.secrets["firecrawl_api_key"] *)
  firecrawl_api_key : string;
  (* FirecrawlApp(api_key=...) *)
  FirecrawlApp : trace -> string -> outcome unit;
  (* firecrawl_app.deep_research(query=, params=, on_activity=): the
     notifications handed to the callback, then the response or error *)
  firecrawl_deep_research :
    trace -> string -> pyval -> list activity * outcome pyval;
  (* the language model behind Runner.run, for an agent's name and
     instructions and an input *)
  runtime : trace -> string -> string -> string -> agent_run
}.

(** A tool bound to an agent. *)
Record Tool : Type := mkTool {
  tool_name : string;
  tool_fn : string -> Z -> Z -> Z -> M pyval
}.

Record Agent : Type := mkAgent {
  name : string;
  instructions : string;
  tools : list Tool
}.

Fixpoint find_tool (n : string) (ts : list Tool) : option Tool :=
  match ts with
  | [] => None
  | t :: rest => if String.eqb n (tool_name t) then Some t else find_tool n rest
  end.

(** ** The program *)

Section Program.

Variable W : World.

(** [on_activity], the callback defined inside [deep_research]. *)
Definition on_activity (a : activity) : M unit :=
  st.write ("[" ++ activity_type a ++ "] " ++ activity_message a).

(** The call [firecrawl_app.deep_research(...)] seen from the program. *)
Definition call_deep_research (query : string) (params : pyval) : M pyval :=
  emit (EvFirecrawlDeepResearch query params) ;;
  h <- history ;;
  let '(activities, response) := firecrawl_deep_research W h query params in
  for_each on_activity activities ;;
  lift response.

Definition new_FirecrawlApp (api_key : string) : M unit :=
  emit (EvFirecrawlApp api_key) ;;
  h <- history ;;
  lift (FirecrawlApp W h api_key).

(** The body of the [try] of [deep_research]. *)
Definition deep_research_try (query : string)
    (max_depth time_limit max_urls : Z) : M pyval :=
  new_FirecrawlApp (firecrawl_api_key W) ;;
  let params := PDict [ ("maxDepth", PInt max_depth);
                        ("timeLimit", PInt time_limit);
                        ("maxUrls", PInt max_urls) ] in
  results <- st.spinner "Performing deep research..."
               (call_deep_research query params) ;;
  data1 <- lift (subscr results "data") ;;
  final_analysis <- lift (subscr data1 "finalAnalysis") ;;
  data2 <- lift (subscr results "data") ;;
  sources2 <- lift (subscr data2 "sources") ;;
  sources_count <- lift (len sources2) ;;
  data3 <- lift (subscr results "data") ;;
  sources <- lift (subscr data3 "sources") ;;
  ret (PDict [ ("success", PBool true);
               ("final_analysis", final_analysis);
               ("sources_count", PInt sources_count);
               ("sources", sources) ]).

Definition deep_research (query : string)
    (max_depth time_limit max_urls : Z) : M pyval :=
  try_except_Exception
    (deep_research_try query max_depth time_limit max_urls)
    (fun e =>
       st.error ("Deep research error: " ++ exn_str e) ;;
       ret (PDict [ ("error", PStr (exn_str e)); ("success", PBool false) ])).

Definition research_agent : Agent :=
  mkAgent "research_agent"
"You are a research assistant that can perform deep web research on any topic.

    When given a research topic or question:
    1. Use the deep_research tool to gather comprehensive information
       - Always use these parameters:
         * max_depth: 3 (for moderate depth)
         * time_limit: 180 (3 minutes)
         * max_urls: 10 (sufficient sources)
    2. The tool will search the web, analyze multiple sources, and provide a synthesis
    3. Review the research results and organize them into a well-structured report
    4. Include proper citations for all sources
    5. Highlight key findings and insights
    "
    [mkTool "deep_research" deep_research].

Definition elaboration_agent : Agent :=
  mkAgent "elaboration_agent"
"You are an expert content enhancer specializing in research elaboration.

    When given a research report:
    1. Analyze the structure and content of the report
    2. Enhance the report by:
       - Adding more detailed explanations of complex concepts
       - Including relevant examples, case studies, and real-world applications
       - Expanding on key points with additional context and nuance
       - Adding visual elements descriptions (charts, diagrams, infographics)
       - Incorporating latest trends and future predictions
       - Suggesting practical implications for different stakeholders
    3. Maintain academic rigor and factual accuracy
    4. Preserve the original structure while making it more comprehensive
    5. Ensure all additions are relevant and valuable to the topic
    "
    [].

(** The turns of a run.  A call of a tool the agent does not have is a
    [ModelBehaviorError] of the runtime.  The tool is run in line, as a
    call; the runtime runs it in a task of its own.  The two differ only
    when the tool raises outside [Exception]: such an exception is taken
    here to unwind through the enclosing [with] blocks. *)
Fixpoint run_turns (a : Agent) (r : agent_run) : M string :=
  match r with
  | FinalOutput out => ret out
  | RuntimeRaise e => raise e
  | ToolCall tool query max_depth time_limit max_urls k =>
      match find_tool tool (tools a) with
      | Some t =>
          emit (EvToolInvoke tool query max_depth time_limit max_urls) ;;
          result <- tool_fn t query max_depth time_limit max_urls ;;
          run_turns a (k result)
      | None =>
          raise (mkExn ModelBehaviorError
                   ("Tool " ++ tool ++ " not found in agent " ++ name a))
      end
  end.

(** [(await Runner.run(agent, input)).final_output] *)
Definition Runner_run (a : Agent) (input : string) : M string :=
  emit (EvRunnerRun (name a) input) ;;
  h <- history ;;
  out <- run_turns a (runtime W h (name a) (instructions a) input) ;;
  emit (EvRunnerReturn (name a) out) ;;
  ret out.

(** The f-string built in [run_research_process]. *)
Definition elaboration_input (topic initial_report : string) : string :=
"
        RESEARCH TOPIC: " ++ topic ++ "

        INITIAL RESEARCH REPORT:
        " ++ initial_report ++ "

        Please enhance this research report with additional information, examples, case studies,
        and deeper insights while maintaining its academic rigor and factual accuracy.
        ".

Definition run_research_process (topic : string) : M string :=
  initial_report <- st.spinner "Conducting initial research..."
                      (Runner_run research_agent topic) ;;
  st.expander "View Initial Research Report" (st.markdown initial_report) ;;
  enhanced_report <-
    st.spinner "Enhancing the report with additional information..."
      (Runner_run elaboration_agent (elaboration_input topic initial_report)) ;;
  ret enhanced_report.

(** The handler of the Start Research button: [research_topic] is the
    value of the text input in this run of the script, [clicked] whether
    the user pressed the button. *)
Definition start_research (research_topic : string) (clicked : bool) : M unit :=
  pressed <- st.button "Start Research" (negb (truthy research_topic)) clicked ;;
  if pressed then
    if negb (truthy research_topic) then
      st.warning "Please enter a research topic."
    else
      try_except_Exception
        (st.empty ;;
         enhanced_report <- run_research_process research_topic ;;
         st.placeholder_markdown "## Enhanced Research Report" ;;
         st.placeholder_markdown enhanced_report ;;
         st.download_button "Download Report" enhanced_report
           (replace research_topic " " "_" ++ "_report.md") "text/markdown")
        (fun e => st.error ("An error occurred: " ++ exn_str e))
  else ret tt.

End Program.

(** ** Observations on results and traces *)

(** The request parameters built by [deep_research]. *)
Definition request_params (max_depth time_limit max_urls : Z) : pyval :=
  PDict [ ("maxDepth", PInt max_depth);
          ("timeLimit", PInt time_limit);
          ("maxUrls", PInt max_urls) ].

(** The two dicts [deep_research] returns. *)
Definition success_result (final_analysis : pyval) (sources_count : Z)
    (sources : pyval) : pyval :=
  PDict [ ("success", PBool true);
          ("final_analysis", final_analysis);
          ("sources_count", PInt sources_count);
          ("sources", sources) ].

Definition failure_result (e : exn) : pyval :=
  PDict [ ("error", PStr (exn_str e)); ("success", PBool false) ].

Definition present (k : string) (v : pyval) : bool :=
  match field k v with
  | Some _ => true
  | None => false
  end.

(** [success] is true and the three success fields are there, [error]
    is not. *)
Definition fully_successful (v : pyval) : bool :=
  match field "success" v with
  | Some (PBool true) =>
      present "final_analysis" v && present "sources_count" v
      && present "sources" v && negb (present "error" v)
  | _ => false
  end.

(** [success] is false and [error] holds a message, the three success
    fields are not there. *)
Definition fully_failed (v : pyval) : bool :=
  match field "success" v with
  | Some (PBool false) =>
      match field "error" v with
      | Some (PStr _) =>
          negb (present "final_analysis" v)
          && negb (present "sources_count" v)
          && negb (present "sources" v)
      | _ => false
      end
  | _ => false
  end.

(** [s] occurs in [t] as a contiguous substring. *)
Definition substring_of (s t : string) : Prop :=
  exists before after, t = before ++ s ++ after.

(** Events that [deep_research] adds. *)
Definition adapter_event (e : event) : bool :=
  match e with
  | EvFirecrawlApp _ | EvFirecrawlDeepResearch _ _ | EvWrite _ => true
  | EvSpinnerEnter t | EvSpinnerExit t =>
      String.eqb t "Performing deep research..."
  | EvError body => String.prefix "Deep research error: " body
  | _ => false
  end.

(** Events of a tool call by the runtime: the invocation, then what the
    tool adds. *)
Definition tool_call_event (e : event) : bool :=
  match e with
  | EvToolInvoke _ _ _ _ _ => true
  | _ => adapter_event e
  end.

Definition from_tool_call (e : event) : Prop := tool_call_event e = true.

(** Events that [run_research_process] itself adds around the runs. *)
Definition stage_event (e : event) : bool :=
  match e with
  | EvSpinnerEnter _ | EvSpinnerExit _ | EvExpanderEnter _ | EvExpanderExit _
  | EvMarkdown _ | EvRunnerRun _ _ | EvRunnerReturn _ _ => true
  | _ => false
  end.

Definition elaboration_start (e : event) : bool :=
  match e with
  | EvRunnerRun a _ => String.eqb a "elaboration_agent"
  | _ => false
  end.

(** What [on_activity] writes for one notification. *)
Definition activity_line (a : activity) : event :=
  EvWrite ("[" ++ activity_type a ++ "] " ++ activity_message a).

(** The trace of the first stage when the Research Agent returns
    [report]: the run, then the report shown in the expander. *)
Definition research_stage (topic : string) (body : trace) (report : string)
  : trace :=
  (EvSpinnerEnter "Conducting initial research..."
   :: EvRunnerRun "research_agent" topic
   :: body
   ++ [ EvRunnerReturn "research_agent" report;
        EvSpinnerExit "Conducting initial research...";
        EvExpanderEnter "View Initial Research Report";
        EvMarkdown report;
        EvExpanderExit "View Initial Research Report" ])%list.

Definition elaboration_spinner : string :=
  "Enhancing the report with additional information...".

(** The three ways a run of [run_research_process] can go; [P] holds of
    the events of the tool calls of the first stage. *)
Inductive pipeline_run (P : event -> Prop) (topic : string)
  : trace -> outcome string -> Prop :=
| research_raised body e :
    Forall P body ->
    pipeline_run P topic
      (EvSpinnerEnter "Conducting initial research..."
       :: EvRunnerRun "research_agent" topic
       :: body ++ [EvSpinnerExit "Conducting initial research..."])%list
      (Raise e)
| elaboration_raised body report e :
    Forall P body ->
    pipeline_run P topic
      (research_stage topic body report
       ++ [ EvSpinnerEnter elaboration_spinner;
            EvRunnerRun "elaboration_agent" (elaboration_input topic report);
            EvSpinnerExit elaboration_spinner ])%list
      (Raise e)
| both_returned body report enhanced :
    Forall P body ->
    pipeline_run P topic
      (research_stage topic body report
       ++ [ EvSpinnerEnter elaboration_spinner;
            EvRunnerRun "elaboration_agent" (elaboration_input topic report);
            EvRunnerReturn "elaboration_agent" enhanced;
            EvSpinnerExit elaboration_spinner ])%list
      (Ret enhanced).

(** The states in which a run of the button handler can end, read off
    the last thing rendered: the download button under the final report,
    or an error box. *)
Inductive pipeline_state : Type :=
| Done (report : string)
| Error (message : string).

Definition final_state (tr : trace) : option pipeline_state :=
  match List.rev tr with
  | EvDownloadButton _ _ _ _ :: EvPlaceholderMarkdown report :: _ =>
      Some (Done report)
  | EvError message :: _ => Some (Error message)
  | _ => None
  end.

(** What the handler renders once the pipeline has returned [report]. *)
Definition report_rendering (topic report : string) : trace :=
  [ EvPlaceholderMarkdown "## Enhanced Research Report";
    EvPlaceholderMarkdown report;
    EvDownloadButton "Download Report" (encode report)
      (replace topic " " "_" ++ "_report.md") "text/markdown" ].

(** Exceptions that come from outside the program. *)
Inductive raises_in : agent_run -> exn -> Prop :=
| raises_now e : raises_in (RuntimeRaise e) e
| raises_after tool query max_depth time_limit max_urls k result e :
    raises_in (k result) e ->
    raises_in (ToolCall tool query max_depth time_limit max_urls k) e.

Definition service_raises (W : World) (e : exn) : Prop :=
  (exists h key, FirecrawlApp W h key = Raise e)
  \/ (exists h query params activities,
        firecrawl_deep_research W h query params = (activities, Raise e)).

Definition runtime_raises (W : World) (e : exn) : Prop :=
  exists h n i input, raises_in (runtime W h n i input) e.

(** What a run of the body of the [try] of [deep_research] yields, from
    history [h]: the client cannot be made, or the request is sent and
    its response read. *)
Inductive try_run (W : World) (query : string)
    (max_depth time_limit max_urls : Z) (h : trace)
  : trace -> outcome pyval -> Prop :=
| client_failed e :
    FirecrawlApp W (h ++ [EvFirecrawlApp (firecrawl_api_key W)])%list
      (firecrawl_api_key W) = Raise e ->
    try_run W query max_depth time_limit max_urls h
      [EvFirecrawlApp (firecrawl_api_key W)] (Raise e)
| request_done activities o :
    FirecrawlApp W (h ++ [EvFirecrawlApp (firecrawl_api_key W)])%list
      (firecrawl_api_key W) = Ret tt ->
    match o with
    | Ret v => exists final_analysis sources_count sources,
        v = success_result final_analysis sources_count sources
        /\ len sources = Ret sources_count
    | Raise e => service_raises W e \/ isinstance_Exception e = true
    end ->
    try_run W query max_depth time_limit max_urls h
      (EvFirecrawlApp (firecrawl_api_key W)
       :: EvSpinnerEnter "Performing deep research..."
       :: EvFirecrawlDeepResearch query
            (request_params max_depth time_limit max_urls)
       :: map activity_line activities
       ++ [EvSpinnerExit "Performing deep research..."])%list
      o.

(** Every failure of the research service is an [Exception]. *)
Definition service_errors_only (W : World) : Prop :=
  forall e, service_raises W e -> isinstance_Exception e = true.

(** Every failure of the service or of the agent runtime is an
    [Exception]. *)
Definition errors_only (W : World) : Prop :=
  forall e, service_raises W e \/ runtime_raises W e ->
            isinstance_Exception e = true.

(** Every tool call of a run has parameters that satisfy [Q]. *)
Inductive all_calls (Q : Z -> Z -> Z -> Prop) : agent_run -> Prop :=
| calls_final out : all_calls Q (FinalOutput out)
| calls_raise e : all_calls Q (RuntimeRaise e)
| calls_call tool query max_depth time_limit max_urls k :
    Q max_depth time_limit max_urls ->
    (forall result, all_calls Q (k result)) ->
    all_calls Q (ToolCall tool query max_depth time_limit max_urls k).

(** The tool calls of a run all carry the parameters named in the
    instructions of [research_agent]. *)
Definition follows_instructions : agent_run -> Prop :=
  all_calls (fun max_depth time_limit max_urls =>
               max_depth = 3 /\ time_limit = 180 /\ max_urls = 10).

Definition fixed_parameters (ev : event) : Prop :=
  match ev with
  | EvToolInvoke _ _ max_depth time_limit max_urls =>
      max_depth = 3 /\ time_limit = 180 /\ max_urls = 10
  | EvFirecrawlDeepResearch _ params => params = request_params 3 180 10
  | _ => True
  end.

(** ** Some worlds *)

Definition two_sources : pyval :=
  PDict [ ("data",
           PDict [ ("finalAnalysis", PStr "analysis");
                   ("sources",
                    PList [ PDict [("url", PStr "https://a.example")];
                            PDict [("url", PStr "https://b.example")] ]) ]) ].

(** What the tool returns for the response [two_sources]. *)
Definition calm_result : pyval :=
  success_result (PStr "analysis") 2
    (PList [ PDict [("url", PStr "https://a.example")];
             PDict [("url", PStr "https://b.example")] ]).

(** The Research Agent calls the tool once with the given parameters
    and answers "report"; the Elaboration Agent answers [enhanced]. *)
Definition one_call_runtime (max_depth time_limit max_urls : Z)
    (enhanced : string) (_ : trace) (n _ input : string) : agent_run :=
  if String.eqb n "research_agent"
  then ToolCall "deep_research" input max_depth time_limit max_urls
         (fun _ => FinalOutput "report")
  else FinalOutput enhanced.

(** Everything works. *)
Definition calm_world : World :=
  mkWorld "fc-key"
    (fun _ _ => Ret tt)
    (fun _ _ _ => ([mkActivity "search" "searching"], Ret two_sources))
    (one_call_runtime 3 180 10 "enhanced report").

(** The research service times out. *)
Definition timeout_world : World :=
  mkWorld "fc-key"
    (fun _ _ => Ret tt)
    (fun _ _ _ => ([], Raise (mkExn (OtherException "TimeoutError") "timeout")))
    (one_call_runtime 3 180 10 "enhanced report").

(** The user interrupts the process during the research call. *)
Definition interrupted_world : World :=
  mkWorld "fc-key"
    (fun _ _ => Ret tt)
    (fun _ _ _ => ([], Raise (mkExn KeyboardInterrupt "")))
    (one_call_runtime 3 180 10 "enhanced report").

(** The Elaboration Agent answers with the empty string. *)
Definition silent_world : World :=
  mkWorld "fc-key"
    (fun _ _ => Ret tt)
    (fun _ _ _ => ([], Ret two_sources))
    (one_call_runtime 3 180 10 "").

(** The runtime picks parameters of its own for the tool call. *)
Definition eager_world : World :=
  mkWorld "fc-key"
    (fun _ _ => Ret tt)
    (fun _ _ _ => ([], Ret two_sources))
    (one_call_runtime 5 60 20 "enhanced report").

(** The agent runtime fails in the second stage. *)
Definition outage_world : World :=
  mkWorld "fc-key"
    (fun _ _ => Ret tt)
    (fun _ _ _ => ([], Ret two_sources))
    (fun _ n _ _ =>
       if String.eqb n "research_agent" then FinalOutput "report"
       else RuntimeRaise (mkExn (OtherException "APIConnectionError")
                            "Connection error.")).

(** ** More observations on traces *)

Definition is_request (e : event) : bool :=
  match e with
  | EvFirecrawlDeepResearch _ _ => true
  | _ => false
  end.

Definition is_invocation (e : event) : bool :=
  match e with
  | EvToolInvoke _ _ _ _ _ => true
  | _ => false
  end.

Definition is_run_of (agent : string) (e : event) : bool :=
  match e with
  | EvRunnerRun a _ => String.eqb a agent
  | _ => false
  end.

(** How many events of a trace satisfy [p]. *)
Definition count (p : event -> bool) (tr : trace) : nat :=
  List.length (filter p tr).

(** The [with] blocks of the program. *)
Inductive block : Type :=
| Spinner (text : string)
| Expander (label : string).

Definition same_block (a b : block) : bool :=
  match a, b with
  | Spinner s, Spinner t => String.eqb s t
  | Expander s, Expander t => String.eqb s t
  | _, _ => false
  end.

(** The blocks left open by a trace that starts inside [stack], innermost
    first; [None] when an exit does not close the innermost open block. *)
Fixpoint open_blocks (stack : list block) (tr : trace) : option (list block) :=
  let close b rest :=
    match stack with
    | top :: below => if same_block b top then open_blocks below rest else None
    | [] => None
    end in
  match tr with
  | [] => Some stack
  | EvSpinnerEnter t :: rest => open_blocks (Spinner t :: stack) rest
  | EvExpanderEnter l :: rest => open_blocks (Expander l :: stack) rest
  | EvSpinnerExit t :: rest => close (Spinner t) rest
  | EvExpanderExit l :: rest => close (Expander l) rest
  | _ :: rest => open_blocks stack rest
  end.

(** What the placeholder of [st.empty()] holds after a trace: a
    placeholder holds one element, so each write replaces the one
    before. *)
Fixpoint placeholder_content (shown : option string) (tr : trace)
  : option string :=
  match tr with
  | [] => shown
  | EvEmpty :: rest => placeholder_content None rest
  | EvPlaceholderMarkdown body :: rest => placeholder_content (Some body) rest
  | _ :: rest => placeholder_content shown rest
  end.

(** [s] with every space turned into an underscore. *)
Fixpoint underscore_spaces (s : string) : string :=
  match s with
  | EmptyString => EmptyString
  | String c rest =>
      String (if Ascii.eqb c " " then "_"%char else c) (underscore_spaces rest)
  end.

(** The histories at which [deep_research], called at [h], asks the
    world for the client and for the research. *)
Definition client_history (W : World) (h : trace) : trace :=
  (h ++ [EvFirecrawlApp (firecrawl_api_key W)])%list.

Definition request_history (W : World) (query : string)
    (max_depth time_limit max_urls : Z) (h : trace) : trace :=
  (h ++ [ EvFirecrawlApp (firecrawl_api_key W);
          EvSpinnerEnter "Performing deep research...";
          EvFirecrawlDeepResearch query
            (request_params max_depth time_limit max_urls) ])%list.

(** ** The script around the handler *)

(** What the script renders or sets outside the handler, and, under
    [Core], the events of the program above. *)
Inductive page_event : Type :=
| PgConfig (page_title page_icon layout : string)
| PgStyle (body : string)
| PgSetDefaultOpenAIKey (key : string)
| PgColumns (weights : list string)
| PgColumnEnter (index : nat)
| PgColumnExit (index : nat)
| PgImage (path : string) (width : Z)
| PgTextInput (label placeholder : string)
| Core (e : event).

Definition page_trace := list page_event.

(** Computations of the script: as [M], over the events of the page. *)
Definition Script (A : Type) : Type := page_trace -> page_trace * outcome A.

Definition sret {A} (a : A) : Script A := fun _ => ([], Ret a).

Definition sraise {A} (e : exn) : Script A := fun _ => ([], Raise e).

Definition slift {A} (o : outcome A) : Script A := fun _ => ([], o).

Definition semit (ev : page_event) : Script unit := fun _ => ([ev], Ret tt).

Definition sbind {A B} (m : Script A) (f : A -> Script B) : Script B :=
  fun h =>
    let '(t1, o) := m h in
    match o with
    | Ret a => let '(t2, o2) := f a (h ++ t1)%list in ((t1 ++ t2)%list, o2)
    | Raise e => (t1, Raise e)
    end.

Notation "x <~ c1 ;;; c2" := (sbind c1 (fun x => c2))
  (at level 61, c1 at next level, right associativity).
Notation "c1 ;;; c2" := (sbind c1 (fun _ => c2))
  (at level 61, right associativity).

Fixpoint core_events (tr : page_trace) : trace :=
  match tr with
  | [] => []
  | Core e :: rest => e :: core_events rest
  | _ :: rest => core_events rest
  end.

(** A computation of the program inside the script: it sees the events
    of the program so far. *)
Definition run {A} (m : M A) : Script A :=
  fun h => let '(t, o) := m (core_events h) in (map Core t, o).

(** [try: body  except KeyError: handler] *)
Definition try_except_KeyError {A} (body handler : Script A) : Script A :=
  fun h =>
    let '(t1, o) := body h in
    match o with
    | Ret a => (t1, Ret a)
    | Raise e =>
        match exn_cls e with
        | KeyError =>
            let '(t2, o2) := handler (h ++ t1)%list in ((t1 ++ t2)%list, o2)
        | _ => (t1, Raise e)
        end
    end.

(** [with col: body] *)
Definition column {A} (index : nat) (body : Script A) : Script A :=
  fun h =>
    let '(t1, o) := body (h ++ [PgColumnEnter index])%list in
    ((PgColumnEnter index :: t1 ++ [PgColumnExit index])%list, o).

(** [st.stop()] ends the script by raising [StopException], which is no
    [Exception]. *)
Definition StopException : exn := mkExn (OtherBaseException "StopException") "".

Definition stop {A} : Script A := sraise StopException.

(** [st.secrets[key]]: the secret, or what reading it raises. *)
Definition Secrets : Type := string -> outcome string.

(** The secrets of a file with the given entries: a key that is not
    there is a [KeyError]. *)
Definition secrets_of (entries : list (string * string)) : Secrets :=
  fun key =>
    match List.find (fun kv => String.eqb key (fst kv)) entries with
    | Some kv => Ret (snd kv)
    | None => Raise (mkExn KeyError ("st.secrets has no key " ++ key))
    end.

(** The world in which the global [firecrawl_api_key] holds [key]. *)
Definition with_firecrawl_api_key (W : World) (key : string) : World :=
  mkWorld key (FirecrawlApp W) (firecrawl_deep_research W) (runtime W).

Definition dq : string := String (ascii_of_nat 34) EmptyString.

(** The style sheet passed to [st.markdown] with [unsafe_allow_html]. *)
Definition style_sheet : string :=
"
    <style>
    [data-testid=" ++ dq ++ "column" ++ dq ++ "] {
        display: flex !important;
        align-items: center !important;
    }
    [data-testid=" ++ dq ++ "stImage" ++ dq ++ "] {
        margin-bottom: 0 !important;
    }
    [data-testid=" ++ dq ++ "stMarkdownContainer" ++ dq ++ "] h1 {
        margin-top: 0 !important;
        padding-top: 0 !important;
    }
    </style>
".

(** The [try] that reads the two keys, and its [except KeyError]. *)
Definition read_api_keys (secrets : Secrets) : Script (string * string) :=
  try_except_KeyError
    (openai_api_key <~ slift (secrets "openai_api_key") ;;;
     firecrawl_api_key <~ slift (secrets "firecrawl_api_key") ;;;
     semit (PgSetDefaultOpenAIKey openai_api_key) ;;;
     sret (openai_api_key, firecrawl_api_key))
    (run (st.error
            "API keys not found in secrets. Please check your Streamlit settings.")
     ;;; stop).

(** One run of the script, from top to bottom: [research_topic] is what
    the text input holds and [clicked] whether the button was pressed. *)
Definition script (W : World) (secrets : Secrets) (research_topic : string)
    (clicked : bool) : Script unit :=
  semit (PgConfig "Gazai Deep Research Agent" "📘" "wide") ;;;
  semit (PgStyle style_sheet) ;;;
  keys <~ read_api_keys secrets ;;;
  semit (PgColumns ["0.2"; "0.8"]) ;;;
  column 0 (semit (PgImage "gazai.png" 150)) ;;;
  column 1 (run (st.markdown "# Deep Research Agent")) ;;;
  run (st.markdown "This Agent performs deep research on any topic") ;;;
  semit (PgTextInput "Enter your research topic:"
           "e.g., Latest developments in AI") ;;;
  run (start_research (with_firecrawl_api_key W (snd keys))
         research_topic clicked) ;;;
  run (st.markdown "---") ;;;
  run (st.markdown "Powered by GAZAI.ai").

(** Reading one of the two keys raises [e]. *)
Definition reading_raises (secrets : Secrets) (e : exn) : Prop :=
  secrets "openai_api_key" = Raise e
  \/ (exists openai_api_key,
        secrets "openai_api_key" = Ret openai_api_key
        /\ secrets "firecrawl_api_key" = Raise e).

(** What the script renders before it reads the keys, after it has read
    them, and at its end. *)
Definition page_top : page_trace :=
  [ PgConfig "Gazai Deep Research Agent" "📘" "wide"; PgStyle style_sheet ].

Definition page_header : page_trace :=
  [ PgColumns ["0.2"; "0.8"];
    PgColumnEnter 0; PgImage "gazai.png" 150; PgColumnExit 0;
    PgColumnEnter 1; Core (EvMarkdown "# Deep Research Agent"); PgColumnExit 1;
    Core (EvMarkdown "This Agent performs deep research on any topic");
    PgTextInput "Enter your research topic:" "e.g., Latest developments in AI" ].

Definition footer : page_trace :=
  [ Core (EvMarkdown "---"); Core (EvMarkdown "Powered by GAZAI.ai") ].

Definition both_keys : Secrets :=
  secrets_of [ ("openai_api_key", "sk-key"); ("firecrawl_api_key", "fc-key") ].

Definition openai_key_only : Secrets :=
  secrets_of [ ("openai_api_key", "sk-key") ].

(** Reading any key fails with an exception that is no [KeyError]. *)
Definition no_secrets_file : Secrets :=
  fun _ => Raise (mkExn (OtherException "FileNotFoundError")
                    "No secrets files found.").

(** The service answers with an empty object. *)
Definition bare_world : World :=
  mkWorld "fc-key"
    (fun _ _ => Ret tt)
    (fun _ _ _ => ([], Ret (PDict [])))
    (one_call_runtime 3 180 10 "enhanced report").

(** The client cannot be made. *)
Definition keyless_world : World :=
  mkWorld ""
    (fun _ _ => Raise (mkExn ValueError "No API key provided"))
    (fun _ _ _ => ([], Ret two_sources))
    (one_call_runtime 3 180 10 "enhanced report").

(** ** UTF-8 *)

(** The UTF-8 encoding of a sequence of code points, from its definition
    (RFC 3629): one to four bytes for each code point.  It is what
    [str.encode()] yields for a [str] with these code points, none of
    them a surrogate. *)
Definition byte_of_N (n : N) : Byte.byte := byte_of_ascii (ascii_of_N n).

Definition utf8_code_point (cp : N) : list Byte.byte :=
  if (cp <? 128)%N then
    [ byte_of_N cp ]
  else if (cp <? 2048)%N then
    [ byte_of_N (192 + cp / 64); byte_of_N (128 + cp mod 64) ]
  else if (cp <? 65536)%N then
    [ byte_of_N (224 + cp / 4096);
      byte_of_N (128 + (cp / 64) mod 64);
      byte_of_N (128 + cp mod 64) ]
  else
    [ byte_of_N (240 + cp / 262144);
      byte_of_N (128 + (cp / 4096) mod 64);
      byte_of_N (128 + (cp / 64) mod 64);
      byte_of_N (128 + cp mod 64) ].

Definition utf8 (code_points : list N) : list Byte.byte :=
  flat_map utf8_code_point code_points.

(** A code point that a [str] can be encoded with: below 110000 in
    hexadecimal and no surrogate. *)
Definition scalar_value (cp : N) : bool :=
  ((cp <? 55296) || ((57343 <? cp) && (cp <? 1114112)))%N.

(** The [str] with the given code points, in the representation of this
    file. *)
Definition str_of_code_points (code_points : list N) : string :=
  string_of_list_byte (utf8 code_points).

(** The Elaboration Agent answers with a word that has an accent. *)
Definition cafe_world : World :=
  mkWorld "fc-key"
    (fun _ _ => Ret tt)
    (fun _ _ _ => ([], Ret two_sources))
    (one_call_runtime 3 180 10 (str_of_code_points [99; 97; 102; 233]%N)).

(** * Proofs *)

(** Case analysis on, and search in, a list given by its elements. *)
Ltac in_cases H :=
  repeat
    (simpl in H;
     match type of H with
     | In _ (_ ++ _)%list => apply in_app_or in H as [H|H]
     | _ \/ _ => destruct H as [H|H]
     | False => contradiction
     | _ = _ => first [discriminate H | injection H as H]
     end).


Ltac find_in :=
  simpl;
  first [ assumption
        | left; reflexivity
        | right; find_in
        | apply in_or_app; right; find_in
        | apply in_or_app; left; find_in ].

(** ** Python values and the callback *)

Lemma subscr_raise v k e :
  subscr v k = Raise e -> isinstance_Exception e = true.
Proof.
  destruct v; simpl; try (intro H; injection H as <-; reflexivity).
  destruct (assoc k items); [discriminate|].
  intro H; injection H as <-; reflexivity.
Qed.

Lemma len_raise v e : len v = Raise e -> isinstance_Exception e = true.
Proof.
  destruct v; simpl; try discriminate; intro H; injection H as <-; reflexivity.
Qed.

Lemma for_each_on_activity activities h :
  for_each on_activity activities h = (map activity_line activities, Ret tt).
Proof.
  revert h. induction activities as [|a rest IH]; intro h; [reflexivity|].
  simpl. unfold bind at 1. simpl. now rewrite IH.
Qed.

Lemma Forall_activity_lines activities :
  Forall (fun ev => adapter_event ev = true) (map activity_line activities).
Proof.
  induction activities; simpl; constructor; auto.
Qed.

(** ** The tool *)

Section Tool.

Variable W : World.

Lemma deep_research_try_run q d t u h :
  try_run W q d t u h (fst (deep_research_try W q d t u h))
    (snd (deep_research_try W q d t u h)).
Proof.
  unfold deep_research_try, new_FirecrawlApp, st.spinner, with_,
    call_deep_research, bind, lift, history, emit, ret. simpl.
  destruct (FirecrawlApp W _ _) as [[]|e] eqn:Happ; simpl.
  2:{ apply client_failed. exact Happ. }
  destruct (firecrawl_deep_research W _ _ _) as [acts resp] eqn:Hreq; simpl.
  rewrite for_each_on_activity. simpl.
  destruct resp as [v|e]; simpl.
  2:{ rewrite ?app_nil_r. apply request_done; [exact Happ|]. left. right. eauto. }
  destruct (subscr v "data") as [data|e] eqn:Hdata; simpl.
  2:{ rewrite ?app_nil_r. apply request_done; [exact Happ|].
      right. eapply subscr_raise; eauto. }
  destruct (subscr data "finalAnalysis") as [fa|e] eqn:Hfa; simpl.
  2:{ rewrite ?app_nil_r. apply request_done; [exact Happ|].
      right. eapply subscr_raise; eauto. }
  destruct (subscr data "sources") as [srcs|e] eqn:Hsrcs; simpl.
  2:{ rewrite ?app_nil_r. apply request_done; [exact Happ|].
      right. eapply subscr_raise; eauto. }
  destruct (len srcs) as [n|e] eqn:Hlen; simpl.
  2:{ rewrite ?app_nil_r. apply request_done; [exact Happ|].
      right. eapply len_raise; eauto. }
  rewrite ?app_nil_r. apply request_done; [exact Happ|].
  exists fa, n, srcs. auto.
Qed.

End Tool.

Section Pipeline.

Variable W : World.

Lemma deep_research_run q d t u h :
  deep_research W q d t u h =
  let r := deep_research_try W q d t u h in
  match snd r with
  | Ret v => (fst r, Ret v)
  | Raise e =>
      if isinstance_Exception e
      then ((fst r ++ [EvError ("Deep research error: " ++ exn_str e)])%list,
            Ret (failure_result e))
      else (fst r, Raise e)
  end.
Proof.
  unfold deep_research, try_except_Exception.
  destruct (deep_research_try W q d t u h) as [t1 [v|e]]; reflexivity.
Qed.

Lemma try_run_events q d t u h tr o :
  try_run W q d t u h tr o -> Forall (fun ev => adapter_event ev = true) tr.
Proof.
  intros [e He|activities o' Happ Ho].
  - constructor; [reflexivity|constructor].
  - do 3 (constructor; [reflexivity|]).
    apply Forall_app; split; [apply Forall_activity_lines|].
    constructor; [reflexivity|constructor].
Qed.

Lemma deep_research_events q d t u h :
  Forall (fun ev => adapter_event ev = true) (fst (deep_research W q d t u h)).
Proof.
  rewrite deep_research_run. cbv zeta.
  pose proof (try_run_events _ _ _ _ _ _ _ (deep_research_try_run W q d t u h)) as Hev.
  destruct (snd (deep_research_try W q d t u h)) as [v|e]; simpl; auto.
  destruct (isinstance_Exception e); simpl; auto.
  apply Forall_app; split; auto.
  constructor; [|constructor]. simpl. now destruct (exn_str e).
Qed.

(** The outcome of the tool: a success record, a failure record for a
    caught error, or an exception of the service that is no [Exception]. *)
Lemma deep_research_outcome q d t u h :
  match snd (deep_research W q d t u h) with
  | Ret v =>
      (exists final_analysis sources_count sources,
          v = success_result final_analysis sources_count sources
          /\ len sources = Ret sources_count)
      \/ (exists e, v = failure_result e
                    /\ snd (deep_research_try W q d t u h) = Raise e)
  | Raise e => isinstance_Exception e = false /\ service_raises W e
  end.
Proof.
  rewrite deep_research_run. cbv zeta.
  pose proof (deep_research_try_run W q d t u h) as Hrun.
  destruct (snd (deep_research_try W q d t u h)) as [v|e] eqn:Ho; simpl.
  - left. inversion Hrun; subst. assumption.
  - destruct (isinstance_Exception e) eqn:He; simpl.
    + right. eauto.
    + split; [exact He|].
      inversion Hrun as [e' Hs|activities o' Happ Hs]; subst.
      * left. eauto.
      * destruct Hs as [Hs|Hs]; [assumption|congruence].
Qed.

(** Every request the tool sends carries the arguments it was called
    with. *)
Lemma deep_research_requests q d t u h query params :
  In (EvFirecrawlDeepResearch query params) (fst (deep_research W q d t u h)) ->
  query = q /\ params = request_params d t u.
Proof.
  rewrite deep_research_run. cbv zeta.
  pose proof (deep_research_try_run W q d t u h) as Hrun.
  assert (Htry : In (EvFirecrawlDeepResearch query params)
                   (fst (deep_research_try W q d t u h)) ->
                 query = q /\ params = request_params d t u).
  { inversion Hrun as [e Hs Htr|activities o Happ Ho Htr]; simpl.
    - intros [Hin|[]]; discriminate.
    - intros [Hin|[Hin|[Hin|Hin]]]; try discriminate.
      + injection Hin as <- <-. auto.
      + apply in_app_or in Hin as [Hin|[Hin|[]]]; [|discriminate].
        apply in_map_iff in Hin as [a [Ha _]]. discriminate. }
  destruct (snd (deep_research_try W q d t u h)) as [v|e]; simpl; auto.
  destruct (isinstance_Exception e); simpl; auto.
  intro Hin. apply in_app_or in Hin as [Hin|[Hin|[]]]; [auto|discriminate].
Qed.

(** *** The agent runtime *)

Lemma run_turns_call tool q d t u k h :
  run_turns (research_agent W) (ToolCall tool q d t u k) h =
  if String.eqb tool "deep_research" then
    let h1 := (h ++ [EvToolInvoke tool q d t u])%list in
    let r1 := deep_research W q d t u h1 in
    match snd r1 with
    | Ret v =>
        let r2 := run_turns (research_agent W) (k v) (h1 ++ fst r1)%list in
        ((EvToolInvoke tool q d t u :: fst r1 ++ fst r2)%list, snd r2)
    | Raise e => (EvToolInvoke tool q d t u :: fst r1, Raise e)
    end
  else ([], Raise (mkExn ModelBehaviorError
                     ("Tool " ++ tool ++ " not found in agent research_agent"))).
Proof.
  simpl. destruct (String.eqb tool "deep_research"); [|reflexivity].
  unfold bind, emit; simpl.
  destruct (deep_research W q d t u _) as [t1 [v|e]]; simpl; [|reflexivity].
  now destruct (run_turns (research_agent W) (k v) _).
Qed.

Lemma run_turns_research_events (P : event -> Prop) (Q : Z -> Z -> Z -> Prop) :
  (forall tool q d t u, Q d t u -> P (EvToolInvoke tool q d t u)) ->
  (forall q d t u h, Q d t u -> Forall P (fst (deep_research W q d t u h))) ->
  forall r, all_calls Q r ->
  forall h, Forall P (fst (run_turns (research_agent W) r h)).
Proof.
  intros Hinvoke Htool r Hr.
  induction Hr as [out|e|tool q d t u k HQ Hk IH]; intro h;
    [constructor|constructor|].
  rewrite run_turns_call.
  destruct (String.eqb tool "deep_research"); [|constructor]. cbv zeta.
  pose proof (Htool q d t u (h ++ [EvToolInvoke tool q d t u])%list HQ) as H1.
  destruct (snd (deep_research W q d t u _)) as [v|e]; simpl.
  - constructor; [auto|]. apply Forall_app; split; [exact H1|apply IH].
  - constructor; auto.
Qed.

Lemma all_calls_any r : all_calls (fun _ _ _ => True) r.
Proof.
  induction r; constructor; auto.
Qed.

Lemma run_turns_research_tool_calls r h :
  Forall from_tool_call (fst (run_turns (research_agent W) r h)).
Proof.
  apply run_turns_research_events with (Q := fun _ _ _ => True).
  - reflexivity.
  - intros q d t u h' _. eapply Forall_impl; [|apply deep_research_events].
    intros ev Hev. unfold from_tool_call. destruct ev; simpl in *; congruence.
  - apply all_calls_any.
Qed.

(** An exception that leaves a run of the Research Agent is an
    [Exception], or was raised by the research service or by the runtime. *)
Lemma run_turns_research_raise r h e :
  snd (run_turns (research_agent W) r h) = Raise e ->
  isinstance_Exception e = true \/ service_raises W e \/ raises_in r e.
Proof.
  revert h. induction r as [out|e'|tool q d t u k IH]; intro h.
  - discriminate.
  - simpl. intro H. injection H as <-. right. right. constructor.
  - rewrite run_turns_call.
    destruct (String.eqb tool "deep_research").
    2:{ simpl. intro H. injection H as <-. now left. }
    cbv zeta.
    pose proof (deep_research_outcome q d t u
                  (h ++ [EvToolInvoke tool q d t u])%list) as Ho.
    destruct (snd (deep_research W q d t u _)) as [v|e1]; simpl.
    + intro H. apply IH in H as [H|[H|H]]; auto.
      right. right. econstructor; eauto.
    + intro H. injection H as <-. right. left. apply Ho.
Qed.

Lemma run_turns_elaboration r h :
  run_turns elaboration_agent r h =
  ([], match r with
       | FinalOutput out => Ret out
       | RuntimeRaise e => Raise e
       | ToolCall tool _ _ _ _ _ =>
           Raise (mkExn ModelBehaviorError
                    ("Tool " ++ tool ++ " not found in agent elaboration_agent"))
       end).
Proof.
  now destruct r.
Qed.

Lemma run_turns_elaboration_raise r h e :
  snd (run_turns elaboration_agent r h) = Raise e ->
  isinstance_Exception e = true \/ raises_in r e.
Proof.
  rewrite run_turns_elaboration. destruct r; simpl; try discriminate.
  - intro H. injection H as <-. right. constructor.
  - intro H. injection H as <-. now left.
Qed.

Lemma Runner_run_run a input h :
  Runner_run W a input h =
  let h1 := (h ++ [EvRunnerRun (name a) input])%list in
  let r := run_turns a (runtime W h1 (name a) (instructions a) input) h1 in
  match snd r with
  | Ret out =>
      ((EvRunnerRun (name a) input :: fst r
        ++ [EvRunnerReturn (name a) out])%list, Ret out)
  | Raise e => (EvRunnerRun (name a) input :: fst r, Raise e)
  end.
Proof.
  unfold Runner_run, bind, emit, history, ret; simpl.
  rewrite app_nil_r.
  destruct (run_turns a _ _) as [t1 [out|e]]; reflexivity.
Qed.

(** *** The two stages *)

Lemma run_research_process_run (P : event -> Prop) topic h :
  (forall h1 h2,
      Forall P (fst (run_turns (research_agent W)
                       (runtime W h1 (name (research_agent W))
                          (instructions (research_agent W)) topic) h2))) ->
  pipeline_run P topic (fst (run_research_process W topic h))
    (snd (run_research_process W topic h)).
Proof.
  intro Hbody.
  unfold run_research_process, st.spinner, st.expander, st.markdown, with_,
    bind, emit, ret.
  rewrite !Runner_run_run. cbv zeta.
  match goal with
  | |- context [run_turns (research_agent W) (runtime W ?h0 ?n ?i ?x) ?h1] =>
      generalize (Hbody h0 h1);
      destruct (run_turns (research_agent W) (runtime W h0 n i x) h1)
        as [body [report|e]]; intro Hb
  end; simpl in *.
  2:{ apply research_raised. exact Hb. }
  rewrite Runner_run_run. cbv zeta. rewrite run_turns_elaboration.
  match goal with
  | |- context [runtime W ?h1 ?n ?i ?x] => destruct (runtime W h1 n i x)
  end; simpl.
  - rewrite <- !app_assoc. simpl.
    pose proof (both_returned P topic body report final_output Hb) as X.
    unfold research_stage, elaboration_spinner in X. simpl in X.
    rewrite <- app_assoc in X. exact X.
  - rewrite <- !app_assoc. simpl.
    pose proof (elaboration_raised P topic body report e Hb) as X.
    unfold research_stage, elaboration_spinner in X. simpl in X.
    rewrite <- app_assoc in X. exact X.
  - rewrite <- !app_assoc. simpl.
    match goal with |- pipeline_run _ _ _ (Raise ?e1) =>
      pose proof (elaboration_raised P topic body report e1 Hb) as X end.
    unfold research_stage, elaboration_spinner in X. simpl in X.
    rewrite <- app_assoc in X. exact X.
Qed.

Lemma run_research_process_raise topic h e :
  snd (run_research_process W topic h) = Raise e ->
  isinstance_Exception e = true \/ service_raises W e \/ runtime_raises W e.
Proof.
  unfold run_research_process, st.spinner, st.expander, st.markdown, with_,
    bind, emit, ret.
  rewrite !Runner_run_run. cbv zeta.
  match goal with
  | |- context [run_turns (research_agent W) ?r ?h1] =>
      pose proof (run_turns_research_raise r h1) as Hr;
      destruct (run_turns (research_agent W) r h1) as [body [report|e1]]
  end; simpl in *.
  2:{ intro H. injection H as <-.
      destruct (Hr e1 eq_refl) as [H|[H|H]]; auto.
      right. right. unfold runtime_raises. eauto. }
  rewrite Runner_run_run. cbv zeta.
  match goal with
  | |- context [run_turns elaboration_agent ?r ?h1] =>
      pose proof (run_turns_elaboration_raise r h1) as He;
      destruct (run_turns elaboration_agent r h1) as [body2 [out|e2]]
  end; simpl in *; [discriminate|].
  intro H. injection H as <-.
  destruct (He e2 eq_refl) as [H|H]; auto.
  right. right. unfold runtime_raises. eauto.
Qed.

End Pipeline.

(** ** Reading traces *)


Lemma pipeline_run_events P topic tr o :
  pipeline_run P topic tr o ->
  Forall (fun ev => P ev \/ stage_event ev = true) tr.
Proof.
  assert (Hbody : forall body, Forall P body ->
            Forall (fun ev => P ev \/ stage_event ev = true) body).
  { intros body Hb. eapply Forall_impl; [|exact Hb]. auto. }
  intros [body e Hb|body report e Hb|body report enhanced Hb];
    unfold research_stage; simpl;
    repeat (constructor; [now right|]);
    repeat (apply Forall_app; split; [auto|]);
    repeat (constructor; [now right|]); constructor.
Qed.

(** No event of a tool call is a start or an end of a run. *)
Lemma tool_call_not_runner body ev :
  Forall from_tool_call body -> In ev body ->
  match ev with
  | EvRunnerRun _ _ | EvRunnerReturn _ _ => False
  | _ => True
  end.
Proof.
  intros Hb Hin. rewrite Forall_forall in Hb. apply Hb in Hin.
  unfold from_tool_call in Hin. destruct ev; simpl in Hin; (exact I || discriminate).
Qed.

Lemma pipeline_run_elaboration_input topic tr o input :
  pipeline_run from_tool_call topic tr o ->
  In (EvRunnerRun "elaboration_agent" input) tr ->
  exists report,
    In (EvRunnerReturn "research_agent" report) tr
    /\ input = elaboration_input topic report.
Proof.
  intros [body e Hb|body report e Hb|body report enhanced Hb] Hin;
    unfold research_stage in *; in_cases Hin;
    try (destruct (tool_call_not_runner _ _ Hb Hin));
    exists report; (split; [find_in|auto]).
Qed.

Lemma pipeline_run_research_report topic tr o report :
  pipeline_run from_tool_call topic tr o ->
  In (EvRunnerReturn "research_agent" report) tr ->
  In (EvRunnerRun "elaboration_agent" (elaboration_input topic report)) tr.
Proof.
  intros [body e Hb|body report' e Hb|body report' enhanced Hb] Hin;
    unfold research_stage in *; in_cases Hin;
    try (destruct (tool_call_not_runner _ _ Hb Hin));
    subst; find_in.
Qed.

Lemma pipeline_run_final_report topic tr o enhanced :
  pipeline_run from_tool_call topic tr o ->
  In (EvRunnerReturn "elaboration_agent" enhanced) tr ->
  o = Ret enhanced.
Proof.
  intros [body e Hb|body report' e Hb|body report' enhanced' Hb] Hin;
    unfold research_stage in *; in_cases Hin;
    try (destruct (tool_call_not_runner _ _ Hb Hin));
    subst; reflexivity.
Qed.

(** An element that occurs once in a list splits it in one way only. *)
Lemma split_once {A} (P : A -> Prop) (l1 l2 l1' l2' : list A) (x x' : A) :
  Forall (fun y => ~ P y) l1 -> Forall (fun y => ~ P y) l2 ->
  P x -> P x' ->
  (l1 ++ x :: l2 = l1' ++ x' :: l2')%list ->
  l1' = l1 /\ x' = x /\ l2' = l2.
Proof.
  intros H1 H2 Hx Hx'. revert l1'.
  induction H1 as [|y l1 Hy H1 IH]; intros l1' Heq.
  - destruct l1' as [|z l1']; simpl in Heq.
    + injection Heq as -> ->. auto.
    + injection Heq as -> Heq. exfalso.
      rewrite Forall_forall in H2. apply (H2 x'); [|exact Hx'].
      rewrite Heq. apply in_or_app. right. now left.
  - destruct l1' as [|z l1']; simpl in Heq.
    + injection Heq as -> _. contradiction.
    + injection Heq as -> Heq. destruct (IH _ Heq) as (-> & -> & ->). auto.
Qed.

Lemma stage_has_no_start topic body report :
  Forall from_tool_call body ->
  Forall (fun ev => elaboration_start ev <> true)
    (research_stage topic body report
     ++ [EvSpinnerEnter elaboration_spinner])%list.
Proof.
  intro Hb. unfold research_stage. simpl.
  do 2 (constructor; [simpl; congruence|]).
  rewrite <- app_assoc. apply Forall_app; split.
  - eapply Forall_impl; [|exact Hb].
    intros ev Hev. unfold from_tool_call in Hev.
    destruct ev; simpl in *; congruence.
  - repeat (constructor; [simpl; congruence|]). constructor.
Qed.

Lemma split_at_start topic body report rest before input after :
  Forall from_tool_call body ->
  Forall (fun ev => elaboration_start ev <> true) rest ->
  ((research_stage topic body report
    ++ [EvSpinnerEnter elaboration_spinner])
   ++ EvRunnerRun "elaboration_agent" (elaboration_input topic report) :: rest
   = before ++ EvRunnerRun "elaboration_agent" input :: after)%list ->
  before = (research_stage topic body report
            ++ [EvSpinnerEnter elaboration_spinner])%list
  /\ input = elaboration_input topic report.
Proof.
  intros Hb Hrest Heq.
  apply (split_once (fun ev => elaboration_start ev = true)) in Heq
    as (-> & Hx & _).
  - split; [reflexivity|]. now injection Hx.
  - now apply stage_has_no_start.
  - exact Hrest.
  - reflexivity.
  - reflexivity.
Qed.

(** Where the second stage starts in the trace of a run. *)
Lemma pipeline_run_split topic tr o before input after :
  pipeline_run from_tool_call topic tr o ->
  tr = (before ++ EvRunnerRun "elaboration_agent" input :: after)%list ->
  exists body report,
    Forall from_tool_call body
    /\ before = (research_stage topic body report
                 ++ [EvSpinnerEnter elaboration_spinner])%list
    /\ input = elaboration_input topic report.
Proof.
  intros [body e Hb|body report e Hb|body report enhanced Hb] Heq.
  - exfalso.
    assert (Hin : In (EvRunnerRun "elaboration_agent" input)
              (EvSpinnerEnter "Conducting initial research..."
               :: EvRunnerRun "research_agent" topic
               :: body ++ [EvSpinnerExit "Conducting initial research..."])%list).
    { rewrite Heq. apply in_or_app. right. now left. }
    in_cases Hin. destruct (tool_call_not_runner _ _ Hb Hin).
  - exists body, report. split; [exact Hb|].
    apply (split_at_start topic body report
             [EvSpinnerExit elaboration_spinner] before input after Hb).
    + repeat (constructor; [simpl; congruence|]). constructor.
    + rewrite <- Heq, <- app_assoc. reflexivity.
  - exists body, report. split; [exact Hb|].
    apply (split_at_start topic body report
             [EvRunnerReturn "elaboration_agent" enhanced;
              EvSpinnerExit elaboration_spinner] before input after Hb).
    + repeat (constructor; [simpl; congruence|]). constructor.
    + rewrite <- Heq, <- app_assoc. reflexivity.
Qed.

(** *** The button handler *)

Section Handler.

Variable W : World.

Lemma start_research_idle clicked h :
  start_research W "" clicked h = ([EvButton "Start Research" true], Ret tt).
Proof.
  now destruct clicked.
Qed.


Lemma start_research_clicked topic h :
  topic <> "" ->
  start_research W topic true h =
  let r := run_research_process W topic
             (h ++ [EvButton "Start Research" false; EvEmpty])%list in
  match snd r with
  | Ret report =>
      ((EvButton "Start Research" false :: EvEmpty :: fst r
        ++ report_rendering topic report)%list, Ret tt)
  | Raise e =>
      if isinstance_Exception e
      then ((EvButton "Start Research" false :: EvEmpty :: fst r
             ++ [EvError ("An error occurred: " ++ exn_str e)])%list, Ret tt)
      else (EvButton "Start Research" false :: EvEmpty :: fst r, Raise e)
  end.
Proof.
  intro Htopic. destruct topic as [|c rest]; [contradiction|].
  unfold start_research, st.button, st.empty, st.placeholder_markdown,
    st.download_button, st.error, try_except_Exception, bind, emit, ret.
  simpl. rewrite <- app_assoc. simpl.
  destruct (run_research_process W (String c rest) _) as [tr [report|e]]; simpl.
  - reflexivity.
  - destruct (isinstance_Exception e); reflexivity.
Qed.

End Handler.

Lemma final_state_rendering tr topic report :
  final_state (tr ++ report_rendering topic report)%list = Some (Done report).
Proof.
  unfold final_state, report_rendering. rewrite rev_app_distr. reflexivity.
Qed.

Lemma final_state_error tr message :
  final_state (tr ++ [EvError message])%list = Some (Error message).
Proof.
  unfold final_state. rewrite rev_app_distr. reflexivity.
Qed.

Lemma prefix_substring s t : String.prefix s t = true -> exists after, t = s ++ after.
Proof.
  revert t. induction s as [|c s IH]; intros t H.
  - exists t. reflexivity.
  - destruct t as [|c' t]; simpl in H; [discriminate|].
    destruct (ascii_dec c c') as [<-|]; [|discriminate].
    destruct (IH _ H) as [after ->]. exists after. reflexivity.
Qed.

Lemma contains_substring s sub : contains s sub = true -> substring_of sub s.
Proof.
  induction s as [|c s IH]; intro H; cbn [contains] in H.
  - destruct sub; [|discriminate]. exists "", "". reflexivity.
  - apply orb_true_iff in H as [H|H].
    + apply prefix_substring in H as [after ->]. exists "", after. reflexivity.
    + destruct (IH H) as (before & after & ->).
      exists (String c before), after. reflexivity.
Qed.

(** ** The worlds above *)

Lemma one_call_runtime_raises d t u enhanced h n i input e :
  ~ raises_in (one_call_runtime d t u enhanced h n i input) e.
Proof.
  unfold one_call_runtime. intro H.
  destruct (String.eqb n "research_agent"); inversion H; subst.
  match goal with X : raises_in (FinalOutput _) _ |- _ => inversion X end.
Qed.

Lemma timeout_world_errors_only : errors_only timeout_world.
Proof.
  intros e [[(h & key & H)|(h & q & p & a & H)]|(h & n & i & input & H)].
  - discriminate.
  - simpl in H. injection H as _ <-. reflexivity.
  - now apply one_call_runtime_raises in H.
Qed.

Lemma outage_world_errors_only : errors_only outage_world.
Proof.
  intros e [[(h & key & H)|(h & q & p & a & H)]|(h & n & i & input & H)];
    try discriminate.
  simpl in H. destruct (String.eqb n "research_agent"); inversion H; subst.
  reflexivity.
Qed.

(** ** The research tool *)

(** C2, as stated, fails: the research call is interrupted from the
    keyboard and [deep_research] lets the [KeyboardInterrupt] through,
    since [except Exception] does not catch it. *)
Lemma deep_research_lets_interrupt_through :
  snd (deep_research interrupted_world "AI" 3 180 10 [])
  = Raise (mkExn KeyboardInterrupt "").
Proof.
  reflexivity.
Qed.

(** C2, amended: when every failure of the research service is an
    instance of [Exception], [deep_research] returns a value for every
    input, and whenever its [try] block raises [e] that value is the
    record with [success] false and [error] the text of [e]. *)
Theorem deep_research_catches_errors W query max_depth time_limit max_urls h :
  service_errors_only W ->
  (exists v, snd (deep_research W query max_depth time_limit max_urls h) = Ret v)
  /\ (forall e,
        snd (deep_research_try W query max_depth time_limit max_urls h) = Raise e ->
        exists v,
          snd (deep_research W query max_depth time_limit max_urls h) = Ret v
          /\ field "success" v = Some (PBool false)
          /\ field "error" v = Some (PStr (exn_str e))).
Proof.
  intro Hsvc.
  pose proof (deep_research_outcome W query max_depth time_limit max_urls h) as Ho.
  split.
  - destruct (snd (deep_research W query max_depth time_limit max_urls h))
      as [v|e]; [eauto|].
    destruct Ho as [He Hs]. apply Hsvc in Hs. congruence.
  - intros e He. rewrite deep_research_run in *. cbv zeta in *.
    rewrite He in *.
    destruct (isinstance_Exception e) eqn:Hcls; simpl in *.
    + exists (failure_result e). auto.
    + destruct Ho as [_ Hs]. apply Hsvc in Hs. congruence.
Qed.

Lemma deep_research_catches_errors_witness :
  service_errors_only timeout_world
  /\ (exists v, snd (deep_research timeout_world "AI" 3 180 10 []) = Ret v)
  /\ (forall e,
        snd (deep_research_try timeout_world "AI" 3 180 10 []) = Raise e ->
        exists v,
          snd (deep_research timeout_world "AI" 3 180 10 []) = Ret v
          /\ field "success" v = Some (PBool false)
          /\ field "error" v = Some (PStr (exn_str e))).
Proof.
  assert (H : service_errors_only timeout_world).
  { intros e He. apply timeout_world_errors_only. now left. }
  split; [exact H|].
  apply (deep_research_catches_errors timeout_world "AI" 3 180 10 [] H).
Defined.

Lemma result_shapes v :
  (exists final_analysis sources_count sources,
      v = success_result final_analysis sources_count sources
      /\ len sources = Ret sources_count)
  \/ (exists e, v = failure_result e) ->
  fully_successful v = true /\ fully_failed v = false
  \/ fully_successful v = false /\ fully_failed v = true.
Proof.
  intros [(fa & n & s & -> & _)|(e & ->)]; [left|right]; split; reflexivity.
Qed.

Lemma deep_research_returns W q d t u h v :
  snd (deep_research W q d t u h) = Ret v ->
  (exists final_analysis sources_count sources,
      v = success_result final_analysis sources_count sources
      /\ len sources = Ret sources_count)
  \/ (exists e, v = failure_result e).
Proof.
  intro Hv. pose proof (deep_research_outcome W q d t u h) as Ho.
  rewrite Hv in Ho. destruct Ho as [Ho|(e & -> & _)]; eauto.
Qed.

(** C3: a value returned by [deep_research] is fully successful or fully
    failed, and not both. *)
Theorem deep_research_result_never_partial
    W query max_depth time_limit max_urls h v :
  snd (deep_research W query max_depth time_limit max_urls h) = Ret v ->
  fully_successful v = true /\ fully_failed v = false
  \/ fully_successful v = false /\ fully_failed v = true.
Proof.
  intro Hv. apply result_shapes. eapply deep_research_returns; eauto.
Qed.

Lemma deep_research_result_never_partial_witness :
  snd (deep_research calm_world "AI" 3 180 10 []) = Ret calm_result
  /\ (fully_successful calm_result = true /\ fully_failed calm_result = false
      \/ fully_successful calm_result = false
         /\ fully_failed calm_result = true).
Proof.
  split; [reflexivity|].
  apply (deep_research_result_never_partial calm_world "AI" 3 180 10 []).
  reflexivity.
Defined.

(** C8: with the empty query nothing is checked first: the client is
    made and, when that succeeds, the request is sent with query [""];
    and whatever is returned is fully successful or fully failed. *)
Theorem deep_research_empty_query W max_depth time_limit max_urls h :
  (exists rest,
      fst (deep_research W "" max_depth time_limit max_urls h)
      = EvFirecrawlApp (firecrawl_api_key W) :: rest
      /\ (FirecrawlApp W (h ++ [EvFirecrawlApp (firecrawl_api_key W)])%list
            (firecrawl_api_key W) = Ret tt ->
          In (EvFirecrawlDeepResearch ""
                (request_params max_depth time_limit max_urls)) rest))
  /\ (forall v,
        snd (deep_research W "" max_depth time_limit max_urls h) = Ret v ->
        fully_successful v = true /\ fully_failed v = false
        \/ fully_successful v = false /\ fully_failed v = true).
Proof.
  split; [|intros v Hv; apply result_shapes; eapply deep_research_returns; eauto].
  rewrite deep_research_run. cbv zeta.
  pose proof (deep_research_try_run W "" max_depth time_limit max_urls h) as Hrun.
  inversion Hrun as [e Happ Htr Ho|activities o Happ Hres Htr Ho];
    rewrite <- ?Htr, <- ?Ho.
  - destruct (isinstance_Exception e); simpl; eexists; (split; [reflexivity|]);
      intro H; congruence.
  - destruct o as [v|e]; [|destruct (isinstance_Exception e)]; simpl;
      eexists; (split; [reflexivity|]); intros _; right; now left.
Qed.

Lemma deep_research_empty_query_witness :
  In (EvFirecrawlDeepResearch "" (request_params 3 180 10))
    (fst (deep_research timeout_world "" 3 180 10 []))
  /\ fully_failed (failure_result (mkExn (OtherException "TimeoutError") "timeout"))
     = true.
Proof.
  destruct (deep_research_empty_query timeout_world 3 180 10 [])
    as [(rest & Htr & Hsent) Hshape].
  split.
  - rewrite Htr. right. apply Hsent. reflexivity.
  - destruct (Hshape _ eq_refl) as [[H _]|[_ H]]; [discriminate H|exact H].
Defined.

(** C9: in a successful result, [sources_count] is [len] of [sources];
    for a list of sources that is the number of its elements. *)
Theorem deep_research_counts_sources
    W query max_depth time_limit max_urls h v :
  snd (deep_research W query max_depth time_limit max_urls h) = Ret v ->
  field "success" v = Some (PBool true) ->
  exists sources_count sources,
    field "sources_count" v = Some (PInt sources_count)
    /\ field "sources" v = Some sources
    /\ len sources = Ret sources_count
    /\ (forall items, sources = PList items ->
                      sources_count = Z.of_nat (List.length items)).
Proof.
  intros Hv Hsuccess.
  apply deep_research_returns in Hv as [(fa & n & s & -> & Hlen)|(e & ->)];
    [|discriminate].
  exists n, s. repeat split; auto.
  intros items ->. simpl in Hlen. congruence.
Qed.

Lemma deep_research_counts_sources_witness :
  snd (deep_research calm_world "AI" 3 180 10 []) = Ret calm_result
  /\ field "success" calm_result = Some (PBool true)
  /\ exists sources_count sources,
       field "sources_count" calm_result = Some (PInt sources_count)
       /\ field "sources" calm_result = Some sources
       /\ len sources = Ret sources_count
       /\ (forall items, sources = PList items ->
                         sources_count = Z.of_nat (List.length items)).
Proof.
  split; [reflexivity|]. split; [reflexivity|].
  apply (deep_research_counts_sources calm_world "AI" 3 180 10 []);
    reflexivity.
Defined.

(** ** The two-stage pipeline *)

Section PipelineClaims.

Variable W : World.

Lemma run_research_process_shape topic h :
  pipeline_run from_tool_call topic (fst (run_research_process W topic h))
    (snd (run_research_process W topic h)).
Proof.
  apply run_research_process_run. intros h1 h2.
  apply run_turns_research_tool_calls.
Qed.

Lemma pipeline_event_kind topic tr o ev :
  pipeline_run from_tool_call topic tr o -> In ev tr ->
  tool_call_event ev = true \/ stage_event ev = true.
Proof.
  intros Hrun Hin. apply pipeline_run_events in Hrun.
  rewrite Forall_forall in Hrun. exact (Hrun ev Hin).
Qed.


End PipelineClaims.

(** C4: in the trace of a run, whatever comes before the start of the
    Elaboration Agent is the whole first stage: the Research Agent was
    run and returned [report], [report] was shown in the expander, and
    only then the second stage was entered. *)
Theorem elaboration_after_research_report W topic h before input after :
  fst (run_research_process W topic h)
  = (before ++ EvRunnerRun "elaboration_agent" input :: after)%list ->
  exists body report,
    before
    = (EvSpinnerEnter "Conducting initial research..."
       :: EvRunnerRun "research_agent" topic
       :: body
       ++ [ EvRunnerReturn "research_agent" report;
            EvSpinnerExit "Conducting initial research...";
            EvExpanderEnter "View Initial Research Report";
            EvMarkdown report;
            EvExpanderExit "View Initial Research Report";
            EvSpinnerEnter
              "Enhancing the report with additional information..." ])%list
    /\ Forall from_tool_call body.
Proof.
  intro Heq.
  destruct (pipeline_run_split topic _ _ before input after
              (run_research_process_shape W topic h) Heq)
    as (body & report & Hb & -> & _).
  exists body, report. split; [|exact Hb].
  unfold research_stage, elaboration_spinner. simpl.
  now rewrite <- app_assoc.
Qed.

Lemma elaboration_after_research_report_witness :
  let tr := fst (run_research_process calm_world "AI" []) in
  exists body report,
    firstn 14 tr
    = (EvSpinnerEnter "Conducting initial research..."
       :: EvRunnerRun "research_agent" "AI"
       :: body
       ++ [ EvRunnerReturn "research_agent" report;
            EvSpinnerExit "Conducting initial research...";
            EvExpanderEnter "View Initial Research Report";
            EvMarkdown report;
            EvExpanderExit "View Initial Research Report";
            EvSpinnerEnter
              "Enhancing the report with additional information..." ])%list
    /\ Forall from_tool_call body.
Proof.
  apply (elaboration_after_research_report calm_world "AI" []
           (firstn 14 (fst (run_research_process calm_world "AI" [])))
           (elaboration_input "AI" "report")
           (skipn 15 (fst (run_research_process calm_world "AI" [])))).
  reflexivity.
Defined.

Lemma append_assoc (s t u : string) : (s ++ t) ++ u = s ++ t ++ u.
Proof.
  induction s as [|c s IH]; simpl; [reflexivity|]. now rewrite IH.
Qed.

Lemma elaboration_input_contains topic report :
  substring_of report (elaboration_input topic report)
  /\ substring_of topic (elaboration_input topic report).
Proof.
  unfold elaboration_input. split.
  - exists ("
        RESEARCH TOPIC: " ++ topic ++ "

        INITIAL RESEARCH REPORT:
        "). eexists. simpl. rewrite append_assoc. reflexivity.
  - eexists _, _. reflexivity.
Qed.

(** C6: the Elaboration Agent is run on one string, which is the
    f-string of the topic and of the report the Research Agent returned;
    that report occurs in it whole and unchanged, and so does the topic. *)
Theorem elaboration_input_holds_report_and_topic W topic h :
  let tr := fst (run_research_process W topic h) in
  (forall input,
      In (EvRunnerRun "elaboration_agent" input) tr ->
      exists report,
        In (EvRunnerReturn "research_agent" report) tr
        /\ input = elaboration_input topic report
        /\ substring_of report input
        /\ substring_of topic input)
  /\ (forall report,
        In (EvRunnerReturn "research_agent" report) tr ->
        In (EvRunnerRun "elaboration_agent" (elaboration_input topic report)) tr).
Proof.
  pose proof (run_research_process_shape W topic h) as Hrun.
  split.
  - intros input Hin.
    destruct (pipeline_run_elaboration_input _ _ _ _ Hrun Hin)
      as (report & Hret & ->).
    exists report. repeat split; auto; apply elaboration_input_contains.
  - intros report Hin.
    exact (pipeline_run_research_report _ _ _ _ Hrun Hin).
Qed.

Lemma elaboration_input_holds_report_and_topic_witness :
  let tr := fst (run_research_process calm_world "Foo Bar" []) in
  In (EvRunnerReturn "research_agent" "report") tr
  /\ In (EvRunnerRun "elaboration_agent" (elaboration_input "Foo Bar" "report")) tr
  /\ exists report,
       In (EvRunnerReturn "research_agent" report) tr
       /\ elaboration_input "Foo Bar" "report" = elaboration_input "Foo Bar" report
       /\ substring_of report (elaboration_input "Foo Bar" "report")
       /\ substring_of "Foo Bar" (elaboration_input "Foo Bar" "report").
Proof.
  assert (Hret : In (EvRunnerReturn "research_agent" "report")
                   (fst (run_research_process calm_world "Foo Bar" []))).
  { vm_compute. tauto. }
  destruct (elaboration_input_holds_report_and_topic calm_world "Foo Bar" [])
    as [Hinput Hreport].
  split; [exact Hret|]. split; [exact (Hreport _ Hret)|].
  exact (Hinput _ (Hreport _ Hret)).
Defined.

(** C5, as stated, fails: the parameters of a tool call are chosen by
    the agent runtime.  Here it calls the tool with 5, 60 and 20, and
    these are what the adapter receives and sends on. *)
Lemma adapter_receives_other_parameters :
  let tr := fst (run_research_process eager_world "AI" []) in
  In (EvToolInvoke "deep_research" "AI" 5 60 20) tr
  /\ In (EvFirecrawlDeepResearch "AI" (request_params 5 60 20)) tr.
Proof.
  vm_compute. tauto.
Qed.

Lemma stage_event_fixed ev : stage_event ev = true -> fixed_parameters ev.
Proof.
  destruct ev; simpl; (exact (fun _ => I) || discriminate).
Qed.

Lemma deep_research_fixed W q h :
  Forall fixed_parameters (fst (deep_research W q 3 180 10 h)).
Proof.
  apply Forall_forall. intros ev Hin.
  pose proof (deep_research_events W q 3 180 10 h) as Hev.
  rewrite Forall_forall in Hev. specialize (Hev ev Hin).
  destruct ev; simpl in *; try exact I; try discriminate.
  now apply deep_research_requests in Hin.
Qed.

(** C5, amended: the adapter sends on, unchanged, the parameters of the
    call it receives.  The values 3, 180 and 10 are named in the
    instructions of [research_agent] only, so the adapter receives
    exactly them in every run in which the runtime follows these
    instructions, whatever the topic. *)
Theorem adapter_parameters_are_the_callers W :
  (forall query max_depth time_limit max_urls h sent_query sent_params,
      In (EvFirecrawlDeepResearch sent_query sent_params)
        (fst (deep_research W query max_depth time_limit max_urls h)) ->
      sent_query = query
      /\ sent_params = request_params max_depth time_limit max_urls)
  /\ (substring_of "* max_depth: 3 " (instructions (research_agent W))
      /\ substring_of "* time_limit: 180 " (instructions (research_agent W))
      /\ substring_of "* max_urls: 10 " (instructions (research_agent W)))
  /\ (forall topic h,
        (forall h' input,
            follows_instructions
              (runtime W h' "research_agent" (instructions (research_agent W))
                 input)) ->
        Forall fixed_parameters (fst (run_research_process W topic h))).
Proof.
  split; [|split].
  - intros. eapply deep_research_requests; eauto.
  - repeat split; apply contains_substring; vm_compute; reflexivity.
  - intros topic h Hfollows.
    assert (Hrun : pipeline_run fixed_parameters topic
                     (fst (run_research_process W topic h))
                     (snd (run_research_process W topic h))).
    { apply run_research_process_run. intros h1 h2.
      apply run_turns_research_events
        with (Q := fun d t u => d = 3 /\ t = 180 /\ u = 10).
      - intros tool q d t u HQ. exact HQ.
      - intros q d t u h' (-> & -> & ->). apply deep_research_fixed.
      - apply Hfollows. }
    apply pipeline_run_events in Hrun.
    eapply Forall_impl; [|exact Hrun].
    intros ev [Hev|Hev]; [exact Hev|now apply stage_event_fixed].
Qed.

Lemma calm_world_follows h n i input :
  follows_instructions (runtime calm_world h n i input).
Proof.
  simpl. unfold one_call_runtime.
  destruct (String.eqb n "research_agent"); repeat constructor.
Qed.

Lemma adapter_parameters_are_the_callers_witness :
  In (EvFirecrawlDeepResearch "AI" (request_params 3 180 10))
    (fst (deep_research calm_world "AI" 3 180 10 []))
  /\ Forall fixed_parameters (fst (run_research_process calm_world "AI" [])).
Proof.
  destruct (adapter_parameters_are_the_callers calm_world)
    as (Hsent & _ & Hfixed).
  split.
  - assert (Hin : exists q p,
               In (EvFirecrawlDeepResearch q p)
                 (fst (deep_research calm_world "AI" 3 180 10 []))).
    { eexists _, _. vm_compute. right. right. left. reflexivity. }
    destruct Hin as (q & p & Hin).
    destruct (Hsent _ _ _ _ _ _ _ Hin) as [-> ->]. exact Hin.
  - apply Hfixed. intros h' input. apply calm_world_follows.
Defined.

(** ** The button handler *)

(** C1, as stated, fails in two ways.  When the Elaboration Agent
    answers with the empty string the run ends in Done with an empty
    report; and when the research call is interrupted from the keyboard
    the exception passes the handler and the run ends in neither state. *)
Lemma run_ends_with_empty_report_or_in_no_state :
  final_state (fst (start_research silent_world "AI" true []))
  = Some (Done "")
  /\ final_state (fst (start_research interrupted_world "AI" true [])) = None
  /\ snd (start_research interrupted_world "AI" true [])
     = Raise (mkExn KeyboardInterrupt "").
Proof.
  repeat split; vm_compute; reflexivity.
Qed.

(** C1, amended: for a non-empty topic, when every failure of the
    service and of the agent runtime is an instance of [Exception], a run
    ends in exactly one of two states.  Done: the report returned by the
    Elaboration Agent, empty or not, is shown above the download button,
    and the only error boxes are those of the adapter.  Error: a message
    that starts with "An error occurred: " is shown, and no report and no
    download button. *)
Theorem run_ends_done_or_error W topic h :
  topic <> "" ->
  errors_only W ->
  let tr := fst (start_research W topic true h) in
  (exists report,
      final_state tr = Some (Done report)
      /\ In (EvRunnerReturn "elaboration_agent" report) tr
      /\ (forall message,
            In (EvError message) tr ->
            String.prefix "Deep research error: " message = true))
  \/ (exists e,
        final_state tr = Some (Error ("An error occurred: " ++ exn_str e))
        /\ "An error occurred: " ++ exn_str e <> ""
        /\ (forall body, ~ In (EvPlaceholderMarkdown body) tr)
        /\ (forall label content file_name mime,
              ~ In (EvDownloadButton label content file_name mime) tr)).
Proof.
  intros Htopic Herr. cbv zeta. rewrite (start_research_clicked W topic h Htopic).
  cbv zeta.
  set (h1 := (h ++ [EvButton "Start Research" false; EvEmpty])%list).
  pose proof (run_research_process_shape W topic h1) as Hrun.
  pose proof (run_research_process_raise W topic h1) as Hraise.
  destruct (snd (run_research_process W topic h1)) as [report|e].
  - left. exists report. simpl fst. split; [|split].
    + rewrite !app_comm_cons. apply final_state_rendering.
    + right. right. apply in_or_app. left.
      inversion Hrun; subst. find_in.
    + intros message Hin. in_cases Hin.
      destruct (pipeline_event_kind _ _ _ _ Hrun Hin) as [H|H];
        [exact H|discriminate H].
  - assert (He : isinstance_Exception e = true).
    { destruct (Hraise e eq_refl) as [H|H]; [exact H|].
      apply Herr. tauto. }
    rewrite He. right. exists e. simpl fst. split; [|split; [|split]].
    + rewrite !app_comm_cons. apply final_state_error.
    + discriminate.
    + intros body Hin. in_cases Hin.
      destruct (pipeline_event_kind _ _ _ _ Hrun Hin) as [H|H]; discriminate H.
    + intros label content file_name mime Hin. in_cases Hin.
      destruct (pipeline_event_kind _ _ _ _ Hrun Hin) as [H|H]; discriminate H.
Qed.

Lemma run_ends_done_or_error_witness :
  "AI" <> ""
  /\ errors_only outage_world
  /\ let tr := fst (start_research outage_world "AI" true []) in
     (exists report,
         final_state tr = Some (Done report)
         /\ In (EvRunnerReturn "elaboration_agent" report) tr
         /\ (forall message,
               In (EvError message) tr ->
               String.prefix "Deep research error: " message = true))
     \/ (exists e,
           final_state tr = Some (Error ("An error occurred: " ++ exn_str e))
           /\ "An error occurred: " ++ exn_str e <> ""
           /\ (forall body, ~ In (EvPlaceholderMarkdown body) tr)
           /\ (forall label content file_name mime,
                 ~ In (EvDownloadButton label content file_name mime) tr)).
Proof.
  assert (Htopic : "AI" <> "") by discriminate.
  split; [exact Htopic|]. split; [exact outage_world_errors_only|].
  exact (run_ends_done_or_error outage_world "AI" [] Htopic
           outage_world_errors_only).
Defined.

(** C7: once the Elaboration Agent has returned the final report for
    the topic "Foo Bar", the run ends by showing it and offering it for
    download: the file is named "Foo_Bar_report.md" and has the markdown
    content type, and its content is the report encoded as UTF-8.  The
    content is, byte for byte and in order, the bytes that represent the
    report, and decodes to it; so for a report with the code points
    [code_points] it is their UTF-8 encoding. *)
Theorem download_of_foo_bar W h report :
  In (EvRunnerReturn "elaboration_agent" report)
    (fst (start_research W "Foo Bar" true h)) ->
  exists before content,
    fst (start_research W "Foo Bar" true h)
    = (before
       ++ [ EvPlaceholderMarkdown report;
            EvDownloadButton "Download Report" content
              "Foo_Bar_report.md" "text/markdown" ])%list
    /\ content = map byte_of_ascii (list_ascii_of_string report)
    /\ string_of_list_byte content = report
    /\ List.length content = String.length report
    /\ (forall code_points,
          forallb scalar_value code_points = true ->
          report = str_of_code_points code_points ->
          content = utf8 code_points).
Proof.
  assert (Htopic : "Foo Bar" <> "") by discriminate.
  rewrite (start_research_clicked W "Foo Bar" h Htopic). cbv zeta.
  set (h1 := (h ++ [EvButton "Start Research" false; EvEmpty])%list).
  pose proof (run_research_process_shape W "Foo Bar" h1) as Hrun.
  destruct (snd (run_research_process W "Foo Bar" h1)) as [final|e].
  - intro Hin. in_cases Hin.
    apply (pipeline_run_final_report _ _ _ _ Hrun) in Hin.
    injection Hin as ->.
    exists (EvButton "Start Research" false :: EvEmpty
            :: fst (run_research_process W "Foo Bar" h1)
            ++ [EvPlaceholderMarkdown "## Enhanced Research Report"])%list.
    exists (list_byte_of_string report).
    split; [simpl; rewrite <- app_assoc; reflexivity|].
    split; [reflexivity|].
    split; [apply string_of_list_byte_of_string|].
    split.
    + unfold list_byte_of_string. rewrite length_map.
      clear. induction report; simpl; congruence.
    + intros code_points _ ->. unfold str_of_code_points.
      apply list_byte_of_string_of_list_byte.
  - intro Hin. exfalso.
    destruct (isinstance_Exception e); in_cases Hin;
      apply (pipeline_run_final_report _ _ _ _ Hrun) in Hin; discriminate.
Qed.

Lemma download_of_foo_bar_witness :
  In (EvRunnerReturn "elaboration_agent" (str_of_code_points [99; 97; 102; 233]%N))
    (fst (start_research cafe_world "Foo Bar" true []))
  /\ exists before,
       fst (start_research cafe_world "Foo Bar" true [])
       = (before
          ++ [ EvPlaceholderMarkdown (str_of_code_points [99; 97; 102; 233]%N);
               EvDownloadButton "Download Report"
                 [Byte.x63; Byte.x61; Byte.x66; Byte.xc3; Byte.xa9]
                 "Foo_Bar_report.md" "text/markdown" ])%list.
Proof.
  assert (Hin : In (EvRunnerReturn "elaboration_agent"
                      (str_of_code_points [99; 97; 102; 233]%N))
                  (fst (start_research cafe_world "Foo Bar" true []))).
  { vm_compute. tauto. }
  split; [exact Hin|].
  destruct (download_of_foo_bar cafe_world [] _ Hin)
    as (before & content & Htrace & _ & _ & _ & Hutf8).
  exists before. rewrite Htrace.
  now rewrite (Hutf8 [99; 97; 102; 233]%N eq_refl eq_refl).
Defined.



(** * More on the program *)

(** ** The research tool, case by case *)

Section ToolCases.

Variable W : World.

Lemma deep_research_try_client_fails q d t u h e :
  FirecrawlApp W (client_history W h) (firecrawl_api_key W) = Raise e ->
  deep_research_try W q d t u h
  = ([EvFirecrawlApp (firecrawl_api_key W)], Raise e).
Proof.
  unfold client_history. intro Happ.
  unfold deep_research_try, new_FirecrawlApp, bind, lift, history, emit.
  simpl. now rewrite Happ.
Qed.

Lemma deep_research_try_with_answer q d t u h activities answer :
  FirecrawlApp W (client_history W h) (firecrawl_api_key W) = Ret tt ->
  firecrawl_deep_research W (request_history W q d t u h) q
    (request_params d t u) = (activities, answer) ->
  deep_research_try W q d t u h
  = ((EvFirecrawlApp (firecrawl_api_key W)
      :: EvSpinnerEnter "Performing deep research..."
      :: EvFirecrawlDeepResearch q (request_params d t u)
      :: map activity_line activities
      ++ [EvSpinnerExit "Performing deep research..."])%list,
     match answer with
     | Raise e => Raise e
     | Ret results =>
         match subscr results "data" with
         | Raise e => Raise e
         | Ret data =>
             match subscr data "finalAnalysis" with
             | Raise e => Raise e
             | Ret final_analysis =>
                 match subscr data "sources" with
                 | Raise e => Raise e
                 | Ret sources =>
                     match len sources with
                     | Raise e => Raise e
                     | Ret n => Ret (success_result final_analysis n sources)
                     end
                 end
             end
         end
     end).
Proof.
  unfold client_history, request_history, request_params. intros Happ Hreq.
  unfold deep_research_try, new_FirecrawlApp, st.spinner, with_,
    call_deep_research, bind, lift, history, emit, ret. simpl.
  rewrite Happ. simpl. rewrite <- !app_assoc. simpl. rewrite Hreq.
  rewrite for_each_on_activity. simpl.
  destruct answer as [results|e]; simpl; rewrite ?app_nil_r; [|reflexivity].
  destruct (subscr results "data") as [data|e]; simpl; rewrite ?app_nil_r;
    [|reflexivity].
  destruct (subscr data "finalAnalysis") as [fa|e]; simpl; rewrite ?app_nil_r;
    [|reflexivity].
  destruct (subscr data "sources") as [s|e]; simpl; rewrite ?app_nil_r;
    [|reflexivity].
  destruct (len s) as [n|e]; simpl; rewrite ?app_nil_r; reflexivity.
Qed.

Lemma deep_research_try_quiet q d t u h message :
  ~ In (EvError message) (fst (deep_research_try W q d t u h)).
Proof.
  intro Hin.
  pose proof (try_run_events W q d t u h _ _ (deep_research_try_run W q d t u h))
    as Hev.
  pose proof (deep_research_try_run W q d t u h) as Hrun.
  inversion Hrun as [e Happ Htr Ho|activities o Happ Hres Htr Ho];
    rewrite <- Htr in Hin; in_cases Hin.
  apply in_map_iff in Hin as (a & Ha & _). discriminate.
Qed.

End ToolCases.

(** X1: [deep_research] shows an error box exactly when it returns a
    failure record, and the box carries the text stored under [error]. *)
Theorem deep_research_error_box_iff_failure
    W query max_depth time_limit max_urls h message :
  In (EvError message)
    (fst (deep_research W query max_depth time_limit max_urls h))
  <-> exists e,
        snd (deep_research W query max_depth time_limit max_urls h)
        = Ret (failure_result e)
        /\ message = "Deep research error: " ++ exn_str e.
Proof.
  rewrite deep_research_run. cbv zeta.
  pose proof (deep_research_try_quiet W query max_depth time_limit max_urls h)
    as Hquiet.
  pose proof (deep_research_try_run W query max_depth time_limit max_urls h)
    as Hrun.
  destruct (snd (deep_research_try W query max_depth time_limit max_urls h))
    as [v|e] eqn:Ho.
  - simpl. split.
    + intro Hin. destruct (Hquiet _ Hin).
    + intros (e & Hv & _). exfalso.
      inversion Hrun as [|activities o Happ Hres]; subst.
      destruct Hres as (fa & n & s & -> & _). discriminate.
  - destruct (isinstance_Exception e); simpl.
    + split.
      * intro Hin. apply in_app_or in Hin as [Hin|[Hin|[]]].
        -- destruct (Hquiet _ Hin).
        -- injection Hin as <-. eauto.
      * intros (e' & Hv & ->). injection Hv as ->.
        apply in_or_app. right. now left.
    + split.
      * intro Hin. destruct (Hquiet _ Hin).
      * intros (e' & Hv & _). discriminate.
Qed.

Lemma deep_research_error_box_iff_failure_witness :
  In (EvError "Deep research error: timeout")
    (fst (deep_research timeout_world "AI" 3 180 10 [])).
Proof.
  apply (deep_research_error_box_iff_failure timeout_world "AI" 3 180 10 []).
  exists (mkExn (OtherException "TimeoutError") "timeout").
  split; reflexivity.
Defined.

(** X2: once the client is made the request is sent, and every progress
    notification of the service is written, in the order received and as
    "[type] message", inside the spinner; this also when the call then
    fails.  After the spinner comes at most one error box. *)
Theorem deep_research_writes_activities
    W query max_depth time_limit max_urls h activities answer :
  FirecrawlApp W (client_history W h) (firecrawl_api_key W) = Ret tt ->
  firecrawl_deep_research W
    (request_history W query max_depth time_limit max_urls h) query
    (request_params max_depth time_limit max_urls) = (activities, answer) ->
  exists closing,
    fst (deep_research W query max_depth time_limit max_urls h)
    = (EvFirecrawlApp (firecrawl_api_key W)
       :: EvSpinnerEnter "Performing deep research..."
       :: EvFirecrawlDeepResearch query
            (request_params max_depth time_limit max_urls)
       :: map (fun a => EvWrite ("[" ++ activity_type a ++ "] "
                                 ++ activity_message a)) activities
       ++ EvSpinnerExit "Performing deep research..." :: closing)%list
    /\ (closing = [] \/ exists message, closing = [EvError message]).
Proof.
  intros Happ Hreq. rewrite deep_research_run. cbv zeta.
  rewrite (deep_research_try_with_answer W _ _ _ _ _ _ _ Happ Hreq).
  cbn [fst snd].
  match goal with |- context [match ?o with Ret _ => _ | Raise _ => _ end] =>
    destruct o as [v|e] end;
    [|destruct (isinstance_Exception e)]; cbn [fst].
  - exists []. split; [reflexivity|now left].
  - eexists. simpl. rewrite <- app_assoc. split; [reflexivity|]. right. eauto.
  - exists []. split; [reflexivity|now left].
Qed.

Lemma deep_research_writes_activities_witness :
  exists closing,
    fst (deep_research calm_world "AI" 3 180 10 [])
    = (EvFirecrawlApp "fc-key"
       :: EvSpinnerEnter "Performing deep research..."
       :: EvFirecrawlDeepResearch "AI" (request_params 3 180 10)
       :: [EvWrite "[search] searching"]
       ++ EvSpinnerExit "Performing deep research..." :: closing)%list
    /\ (closing = [] \/ exists message, closing = [EvError message]).
Proof.
  exact (deep_research_writes_activities calm_world "AI" 3 180 10 []
           [mkActivity "search" "searching"] (Ret two_sources)
           eq_refl eq_refl).
Defined.

Lemma field_subscr k v x : field k v = Some x <-> subscr v k = Ret x.
Proof.
  destruct v; simpl; try (split; discriminate).
  destruct (assoc k items); split; congruence.
Qed.

(** X3: when the client is made and the service answers, the tool
    returns a success record exactly when the answer is a response whose
    [data] holds [finalAnalysis] and a [sources] value that has a length;
    the record then carries these two values unchanged, and the length. *)
Theorem deep_research_success_iff_complete_response
    W query max_depth time_limit max_urls h activities answer
    final_analysis n sources :
  FirecrawlApp W (client_history W h) (firecrawl_api_key W) = Ret tt ->
  firecrawl_deep_research W
    (request_history W query max_depth time_limit max_urls h) query
    (request_params max_depth time_limit max_urls) = (activities, answer) ->
  snd (deep_research W query max_depth time_limit max_urls h)
  = Ret (success_result final_analysis n sources)
  <-> exists results data,
        answer = Ret results
        /\ field "data" results = Some data
        /\ field "finalAnalysis" data = Some final_analysis
        /\ field "sources" data = Some sources
        /\ len sources = Ret n.
Proof.
  intros Happ Hreq. rewrite deep_research_run. cbv zeta.
  rewrite (deep_research_try_with_answer W _ _ _ _ _ _ _ Happ Hreq).
  cbn [fst snd].
  assert (Hno : forall (e : exn) (tr : trace),
             snd (if isinstance_Exception e
                  then ((tr ++ [EvError ("Deep research error: " ++ exn_str e)])%list,
                        Ret (failure_result e))
                  else (tr, Raise e))
             = Ret (success_result final_analysis n sources) -> False).
  { intros e tr. destruct (isinstance_Exception e); discriminate. }
  split.
  - destruct answer as [results|e]; [|intro H; destruct (Hno _ _ H)].
    destruct (subscr results "data") as [data|e] eqn:Hdata;
      [|intro H; destruct (Hno _ _ H)].
    destruct (subscr data "finalAnalysis") as [fa|e] eqn:Hfa;
      [|intro H; destruct (Hno _ _ H)].
    destruct (subscr data "sources") as [s|e] eqn:Hs;
      [|intro H; destruct (Hno _ _ H)].
    destruct (len s) as [m|e] eqn:Hlen; [|intro H; destruct (Hno _ _ H)].
    cbn [snd]. intro H. injection H as -> -> ->.
    exists results, data. repeat split; auto; now apply field_subscr.
  - intros (results & data & -> & Hdata & Hfa & Hs & Hlen).
    apply field_subscr in Hdata, Hfa, Hs.
    now rewrite Hdata, Hfa, Hs, Hlen.
Qed.

Lemma deep_research_success_iff_complete_response_witness :
  snd (deep_research calm_world "AI" 3 180 10 []) = Ret calm_result.
Proof.
  apply (deep_research_success_iff_complete_response calm_world "AI" 3 180 10 []
           [mkActivity "search" "searching"] (Ret two_sources)
           (PStr "analysis") 2
           (PList [ PDict [("url", PStr "https://a.example")];
                    PDict [("url", PStr "https://b.example")] ])
           eq_refl eq_refl).
  exists two_sources.
  exists (PDict [ ("finalAnalysis", PStr "analysis");
                  ("sources",
                   PList [ PDict [("url", PStr "https://a.example")];
                           PDict [("url", PStr "https://b.example")] ]) ]).
  repeat split; reflexivity.
Defined.

(** X4: a response that lacks what the tool reads gives a failure
    record, not an exception.  A dict without ["data"], a [data] dict
    without ["finalAnalysis"] or without ["sources"] gives the quoted
    key as the error; a response or a [sources] that is [None] gives the
    text of the [TypeError]. *)
Theorem deep_research_on_incomplete_response
    W query max_depth time_limit max_urls h activities results :
  FirecrawlApp W (client_history W h) (firecrawl_api_key W) = Ret tt ->
  firecrawl_deep_research W
    (request_history W query max_depth time_limit max_urls h) query
    (request_params max_depth time_limit max_urls)
  = (activities, Ret results) ->
  let returns_error text :=
    snd (deep_research W query max_depth time_limit max_urls h)
    = Ret (PDict [("error", PStr text); ("success", PBool false)]) in
  (results = PNone ->
   returns_error "'NoneType' object is not subscriptable")
  /\ (forall items,
        results = PDict items -> assoc "data" items = None ->
        returns_error "'data'")
  /\ (forall items,
        field "data" results = Some (PDict items) ->
        assoc "finalAnalysis" items = None ->
        returns_error "'finalAnalysis'")
  /\ (forall items final_analysis,
        field "data" results = Some (PDict items) ->
        assoc "finalAnalysis" items = Some final_analysis ->
        assoc "sources" items = None ->
        returns_error "'sources'")
  /\ (forall items final_analysis,
        field "data" results = Some (PDict items) ->
        assoc "finalAnalysis" items = Some final_analysis ->
        assoc "sources" items = Some PNone ->
        returns_error "object of type 'NoneType' has no len()").
Proof.
  intros Happ Hreq. cbv zeta. rewrite deep_research_run. cbv zeta.
  rewrite (deep_research_try_with_answer W _ _ _ _ _ _ _ Happ Hreq).
  cbn [fst snd].
  split; [|split; [|split; [|split]]].
  - intros ->. reflexivity.
  - intros items -> Hdata. simpl. rewrite Hdata. reflexivity.
  - intros items Hdata Hfa. apply field_subscr in Hdata. rewrite Hdata.
    simpl. rewrite Hfa. reflexivity.
  - intros items fa Hdata Hfa Hs. apply field_subscr in Hdata. rewrite Hdata.
    simpl. rewrite Hfa, Hs. reflexivity.
  - intros items fa Hdata Hfa Hs. apply field_subscr in Hdata. rewrite Hdata.
    simpl. rewrite Hfa, Hs. reflexivity.
Qed.

(** X5: when the client cannot be made, the tool sends no request and
    opens no spinner: it shows the error and returns the failure record. *)
Theorem deep_research_without_client
    W query max_depth time_limit max_urls h e :
  FirecrawlApp W (client_history W h) (firecrawl_api_key W) = Raise e ->
  isinstance_Exception e = true ->
  deep_research W query max_depth time_limit max_urls h
  = ([ EvFirecrawlApp (firecrawl_api_key W);
       EvError ("Deep research error: " ++ exn_str e) ],
     Ret (failure_result e)).
Proof.
  intros Happ He. rewrite deep_research_run. cbv zeta.
  rewrite (deep_research_try_client_fails W _ _ _ _ _ _ Happ).
  cbn [fst snd]. now rewrite He.
Qed.

(** ** The runs of the two agents *)

Lemma count_app p (l1 l2 : trace) :
  count p (l1 ++ l2)%list = (count p l1 + count p l2)%nat.
Proof.
  unfold count. now rewrite filter_app, length_app.
Qed.

Lemma count_cons p ev (l : trace) :
  count p (ev :: l) = ((if p ev then 1 else 0) + count p l)%nat.
Proof.
  unfold count. simpl. now destruct (p ev).
Qed.

Lemma count_none p (l : trace) :
  Forall (fun ev => p ev = false) l -> count p l = O.
Proof.
  unfold count. induction 1 as [|ev l Hev _ IH]; simpl; [reflexivity|].
  now rewrite Hev.
Qed.

Lemma count_activity_lines p activities :
  (forall body, p (EvWrite body) = false) ->
  count p (map activity_line activities) = O.
Proof.
  intro Hp. apply count_none. apply Forall_forall. intros ev Hin.
  apply in_map_iff in Hin as (a & <- & _). apply Hp.
Qed.

Section Runs.

Variable W : World.

Lemma deep_research_sends_at_most_once q d t u h :
  (count is_request (fst (deep_research W q d t u h)) <= 1)%nat.
Proof.
  rewrite deep_research_run. cbv zeta.
  pose proof (deep_research_try_run W q d t u h) as Hrun.
  assert (Htry : (count is_request (fst (deep_research_try W q d t u h)) <= 1)%nat).
  { inversion Hrun as [e Happ Htr Ho|activities o Happ Hres Htr Ho].
    - apply Nat.le_0_l.
    - rewrite !count_cons, count_app, count_activity_lines by reflexivity.
      apply Nat.le_refl. }
  destruct (snd (deep_research_try W q d t u h)) as [v|e]; [exact Htry|].
  destruct (isinstance_Exception e); [|exact Htry].
  cbn [fst]. rewrite count_app. cbn. now rewrite Nat.add_0_r.
Qed.

Lemma deep_research_invokes_nothing q d t u h :
  count is_invocation (fst (deep_research W q d t u h)) = O.
Proof.
  apply count_none.
  eapply Forall_impl; [|apply deep_research_events].
  intros ev Hev. destruct ev; simpl in *; congruence.
Qed.

(** In a run of the Research Agent every request was asked for by an
    invocation of the tool, with the same query and parameters. *)
Lemma run_turns_requests r h query params :
  In (EvFirecrawlDeepResearch query params)
    (fst (run_turns (research_agent W) r h)) ->
  exists max_depth time_limit max_urls,
    In (EvToolInvoke "deep_research" query max_depth time_limit max_urls)
      (fst (run_turns (research_agent W) r h))
    /\ params = request_params max_depth time_limit max_urls.
Proof.
  revert h. induction r as [out|e|tool q d t u k IH]; intro h;
    try (intros []).
  rewrite run_turns_call.
  destruct (String.eqb tool "deep_research") eqn:Htool; [|intros []].
  apply String.eqb_eq in Htool. subst tool. cbv zeta.
  pose proof (deep_research_requests W q d t u
                (h ++ [EvToolInvoke "deep_research" q d t u])%list query params)
    as Hsent.
  destruct (snd (deep_research W q d t u _)) as [v|e]; cbn [fst].
  - intros [Hin|Hin]; [discriminate|].
    apply in_app_or in Hin as [Hin|Hin].
    + destruct (Hsent Hin) as [-> ->]. exists d, t, u. split; [now left|reflexivity].
    + destruct (IH _ _ Hin) as (d' & t' & u' & Hinv & ->).
      exists d', t', u'. split; [|reflexivity].
      right. apply in_or_app. now right.
  - intros [Hin|Hin]; [discriminate|].
    destruct (Hsent Hin) as [-> ->]. exists d, t, u. split; [now left|reflexivity].
Qed.

Lemma run_turns_request_count r h :
  (count is_request (fst (run_turns (research_agent W) r h))
   <= count is_invocation (fst (run_turns (research_agent W) r h)))%nat.
Proof.
  revert h. induction r as [out|e|tool q d t u k IH]; intro h;
    try apply Nat.le_refl.
  rewrite run_turns_call.
  destruct (String.eqb tool "deep_research"); [|apply Nat.le_refl]. cbv zeta.
  pose proof (deep_research_sends_at_most_once q d t u
                (h ++ [EvToolInvoke tool q d t u])%list) as H1.
  pose proof (deep_research_invokes_nothing q d t u
                (h ++ [EvToolInvoke tool q d t u])%list) as H0.
  destruct (snd (deep_research W q d t u _)) as [v|e]; cbn [fst].
  - rewrite !count_cons, !count_app, H0. cbn [is_request is_invocation].
    specialize (IH v).
    match goal with |- context [run_turns _ _ ?h'] => specialize (IH h') end.
    simpl. apply le_n_S in IH.
    eapply Nat.le_trans; [apply Nat.add_le_mono; [exact H1|apply Nat.le_refl]|].
    exact IH.
  - rewrite !count_cons, H0. cbn [is_request is_invocation]. simpl.
    eapply Nat.le_trans; [exact H1|apply Nat.le_refl].
Qed.

(** The trace and the outcome of [run_research_process], in terms of the
    run of the Research Agent and of the answer of the runtime for the
    Elaboration Agent. *)
Lemma run_research_process_trace topic h :
  exists h1,
    let first :=
      run_turns (research_agent W)
        (runtime W h1 (name (research_agent W))
           (instructions (research_agent W)) topic) h1 in
    match snd first with
    | Raise e =>
        run_research_process W topic h
        = ((EvSpinnerEnter "Conducting initial research..."
            :: EvRunnerRun "research_agent" topic
            :: fst first
            ++ [EvSpinnerExit "Conducting initial research..."])%list, Raise e)
    | Ret report =>
        exists h2,
          let second :=
            runtime W h2 "elaboration_agent" (instructions elaboration_agent)
              (elaboration_input topic report) in
          run_research_process W topic h
          = ((research_stage topic (fst first) report
              ++ EvSpinnerEnter elaboration_spinner
              :: EvRunnerRun "elaboration_agent" (elaboration_input topic report)
              :: match second with
                 | FinalOutput out =>
                     [ EvRunnerReturn "elaboration_agent" out;
                       EvSpinnerExit elaboration_spinner ]
                 | _ => [EvSpinnerExit elaboration_spinner]
                 end)%list,
             snd (run_turns elaboration_agent second h2))
    end.
Proof.
  unfold run_research_process, st.spinner, st.expander, st.markdown, with_,
    bind, emit, ret.
  rewrite !Runner_run_run. cbv zeta.
  match goal with
  | |- context [run_turns (research_agent W) (runtime W ?h0 ?n ?i ?x) ?h1] =>
      exists h1; cbv zeta;
      destruct (run_turns (research_agent W) (runtime W h0 n i x) h1)
        as [body [report|e]]
  end; cbn [fst snd]; [|reflexivity].
  simpl. rewrite Runner_run_run. cbv zeta. rewrite run_turns_elaboration.
  match goal with
  | |- context [runtime W ?h2 ?n ?i (elaboration_input topic report)] =>
      exists h2; cbv zeta; rewrite run_turns_elaboration;
      unfold research_stage, elaboration_spinner; simpl
  end.
  match goal with
  | |- context [runtime W ?h2 ?n ?i ?x] => destruct (runtime W h2 n i x)
  end; simpl; rewrite <- !app_assoc; reflexivity.
Qed.

End Runs.

(** ** The pipeline as a whole *)

Lemma tool_call_is_no_run agent body :
  Forall from_tool_call body -> count (is_run_of agent) body = O.
Proof.
  intro Hb. apply count_none. eapply Forall_impl; [|exact Hb].
  intros ev Hev. unfold from_tool_call in Hev.
  destruct ev; simpl in *; congruence.
Qed.

Lemma tool_call_not_shown body ev :
  Forall from_tool_call body -> In ev body ->
  match ev with
  | EvMarkdown _ | EvExpanderEnter _ | EvExpanderExit _ => False
  | _ => True
  end.
Proof.
  intros Hb Hin. rewrite Forall_forall in Hb. apply Hb in Hin.
  unfold from_tool_call in Hin. destruct ev; simpl in Hin; (exact I || discriminate).
Qed.

(** X6: the Research Agent is run exactly once in a run of the
    pipeline, the Elaboration Agent at most once, and exactly once when
    the Research Agent has returned a report. *)
Theorem each_agent_runs_once W topic h :
  let tr := fst (run_research_process W topic h) in
  count (is_run_of "research_agent") tr = 1%nat
  /\ (count (is_run_of "elaboration_agent") tr <= 1)%nat
  /\ (count (is_run_of "elaboration_agent") tr = 1%nat
      <-> exists report, In (EvRunnerReturn "research_agent" report) tr).
Proof.
  cbv zeta. pose proof (run_research_process_shape W topic h) as Hrun.
  destruct Hrun as [body e Hb|body report e Hb|body report enhanced Hb];
    unfold research_stage;
    rewrite ?count_cons, ?count_app, ?count_cons, ?count_app, ?count_cons,
      !(tool_call_is_no_run _ _ Hb); simpl;
    (split; [reflexivity|split; [auto|]]).
  - split; [discriminate|]. intros [report Hin]. in_cases Hin.
    destruct (tool_call_not_runner _ _ Hb Hin).
  - split; [|reflexivity]. intros _. exists report. find_in.
  - split; [|reflexivity]. intros _. exists report. find_in.
Qed.

(** X7: the expander shows the report the Research Agent returned and
    nothing else; when that agent does not return, no report is shown. *)
Theorem initial_report_shown_iff_returned W topic h report :
  In (EvMarkdown report) (fst (run_research_process W topic h))
  <-> In (EvRunnerReturn "research_agent" report)
        (fst (run_research_process W topic h)).
Proof.
  pose proof (run_research_process_shape W topic h) as Hrun.
  destruct Hrun as [body e Hb|body report' e Hb|body report' enhanced Hb];
    unfold research_stage; split; intro Hin; in_cases Hin;
    try (destruct (tool_call_not_shown _ _ Hb Hin));
    try (destruct (tool_call_not_runner _ _ Hb Hin));
    subst; find_in.
Qed.

(** X8: [run_research_process] returns a report exactly when the
    Elaboration Agent has returned it: what is returned is the enhanced
    report, never the initial one in its place. *)
Theorem pipeline_returns_enhanced_report W topic h enhanced :
  snd (run_research_process W topic h) = Ret enhanced
  <-> In (EvRunnerReturn "elaboration_agent" enhanced)
        (fst (run_research_process W topic h)).
Proof.
  pose proof (run_research_process_shape W topic h) as Hrun. split.
  - intro Ho. rewrite Ho in Hrun. inversion Hrun; subst. find_in.
  - intro Hin. exact (pipeline_run_final_report _ _ _ _ Hrun Hin).
Qed.

(** X9: once the Elaboration Agent has been started, no tool is invoked
    and no request is sent: all that follows in the trace is the return
    of the agent, if it returns, and the end of the spinner. *)
Theorem second_stage_calls_no_tool W topic h before input after :
  fst (run_research_process W topic h)
  = (before ++ EvRunnerRun "elaboration_agent" input :: after)%list ->
  after = [EvSpinnerExit "Enhancing the report with additional information..."]
  \/ exists enhanced,
       after = [ EvRunnerReturn "elaboration_agent" enhanced;
                 EvSpinnerExit
                   "Enhancing the report with additional information..." ].
Proof.
  pose proof (run_research_process_shape W topic h) as Hrun.
  destruct Hrun as [body e Hb|body report e Hb|body report enhanced Hb];
    intro Heq.
  - exfalso.
    assert (Hin : In (EvRunnerRun "elaboration_agent" input)
              (EvSpinnerEnter "Conducting initial research..."
               :: EvRunnerRun "research_agent" topic
               :: body ++ [EvSpinnerExit "Conducting initial research..."])%list).
    { rewrite Heq. apply in_or_app. right. now left. }
    in_cases Hin. destruct (tool_call_not_runner _ _ Hb Hin).
  - left.
    change (research_stage topic body report
            ++ [EvSpinnerEnter elaboration_spinner;
                EvRunnerRun "elaboration_agent" (elaboration_input topic report);
                EvSpinnerExit elaboration_spinner])%list
      with (research_stage topic body report
            ++ [EvSpinnerEnter elaboration_spinner]
            ++ EvRunnerRun "elaboration_agent" (elaboration_input topic report)
               :: [EvSpinnerExit elaboration_spinner])%list in Heq.
    rewrite app_assoc in Heq.
    apply (split_once (fun ev => elaboration_start ev = true)) in Heq
      as (_ & _ & ->); [reflexivity|now apply stage_has_no_start| |reflexivity..].
    repeat (constructor; [simpl; congruence|]). constructor.
  - right. exists enhanced.
    change (research_stage topic body report
            ++ [EvSpinnerEnter elaboration_spinner;
                EvRunnerRun "elaboration_agent" (elaboration_input topic report);
                EvRunnerReturn "elaboration_agent" enhanced;
                EvSpinnerExit elaboration_spinner])%list
      with (research_stage topic body report
            ++ [EvSpinnerEnter elaboration_spinner]
            ++ EvRunnerRun "elaboration_agent" (elaboration_input topic report)
               :: [EvRunnerReturn "elaboration_agent" enhanced;
                   EvSpinnerExit elaboration_spinner])%list in Heq.
    rewrite app_assoc in Heq.
    apply (split_once (fun ev => elaboration_start ev = true)) in Heq
      as (_ & _ & ->); [reflexivity|now apply stage_has_no_start| |reflexivity..].
    repeat (constructor; [simpl; congruence|]). constructor.
Qed.

Section PipelineBody.

Variable W : World.

(** A run of the pipeline is the run of the Research Agent between
    events of the pipeline itself. *)
Lemma run_research_process_body topic h :
  exists h1 tail,
    let body :=
      fst (run_turns (research_agent W)
             (runtime W h1 (name (research_agent W))
                (instructions (research_agent W)) topic) h1) in
    fst (run_research_process W topic h)
    = (EvSpinnerEnter "Conducting initial research..."
       :: EvRunnerRun "research_agent" topic :: body ++ tail)%list
    /\ Forall (fun ev => stage_event ev = true) tail
    /\ open_blocks [Spinner "Conducting initial research..."] tail = Some [].
Proof.
  destruct (run_research_process_trace W topic h) as [h1 H]. cbv zeta in H.
  exists h1.
  destruct (snd (run_turns (research_agent W) _ h1)) as [report|e].
  - destruct H as [h2 H]. cbv zeta in H. rewrite H. cbn [fst].
    unfold research_stage, elaboration_spinner. simpl.
    rewrite <- app_assoc. eexists. split; [reflexivity|].
    destruct (runtime W h2 _ _ _); split;
      try (repeat (constructor; [reflexivity|]); constructor); reflexivity.
  - rewrite H. cbn [fst]. eexists. split; [reflexivity|].
    split; [repeat (constructor; [reflexivity|]); constructor|reflexivity].
Qed.

End PipelineBody.

(** X10: the research service is contacted only on behalf of a tool
    call of the runtime: every request in the trace of a run has the
    query and the parameters of an invocation of [deep_research] in the
    same trace, and there are no more requests than invocations. *)
Theorem requests_come_from_invocations W topic h :
  let tr := fst (run_research_process W topic h) in
  (forall query params,
      In (EvFirecrawlDeepResearch query params) tr ->
      exists max_depth time_limit max_urls,
        In (EvToolInvoke "deep_research" query max_depth time_limit max_urls) tr
        /\ params = request_params max_depth time_limit max_urls)
  /\ (count is_request tr <= count is_invocation tr)%nat.
Proof.
  cbv zeta.
  destruct (run_research_process_body W topic h) as (h1 & tail & H).
  cbv zeta in H. destruct H as (-> & Htail & _).
  assert (Hout : forall p, (forall ev, stage_event ev = true -> p ev = false) ->
                 count p tail = O).
  { intros p Hp. apply count_none. eapply Forall_impl; [|exact Htail].
    exact Hp. }
  split.
  - intros query params [Hin|[Hin|Hin]]; try discriminate.
    apply in_app_or in Hin as [Hin|Hin].
    + destruct (run_turns_requests W _ _ _ _ Hin) as (d & t & u & Hinv & ->).
      exists d, t, u. split; [|reflexivity].
      right. right. apply in_or_app. now left.
    + rewrite Forall_forall in Htail. apply Htail in Hin. discriminate.
  - rewrite !count_cons, !count_app. cbn [is_request is_invocation].
    rewrite !Hout; [|intros ev; destruct ev; simpl; congruence
                    |intros ev; destruct ev; simpl; congruence].
    simpl. rewrite !Nat.add_0_r. apply run_turns_request_count.
Qed.

Lemma requests_come_from_invocations_witness :
  exists max_depth time_limit max_urls,
    In (EvToolInvoke "deep_research" "AI" max_depth time_limit max_urls)
      (fst (run_research_process eager_world "AI" []))
    /\ request_params 5 60 20 = request_params max_depth time_limit max_urls.
Proof.
  destruct (requests_come_from_invocations eager_world "AI" []) as [Hreq _].
  apply Hreq. vm_compute. tauto.
Defined.

(** ** Nesting of the spinners and of the expander *)

Lemma open_blocks_app stack (l1 l2 : trace) :
  open_blocks stack (l1 ++ l2)%list
  = match open_blocks stack l1 with
    | Some stack' => open_blocks stack' l2
    | None => None
    end.
Proof.
  revert stack. induction l1 as [|ev l1 IH]; intro stack; [reflexivity|].
  destruct ev; cbn [open_blocks app]; try apply IH;
    destruct stack as [|top below]; try reflexivity;
    match goal with |- context [same_block ?b top] =>
      destruct (same_block b top) end; auto.
Qed.

Lemma open_blocks_activity_lines stack activities :
  open_blocks stack (map activity_line activities) = Some stack.
Proof.
  induction activities; simpl; auto.
Qed.

Lemma deep_research_closes_its_spinner W q d t u h stack :
  open_blocks stack (fst (deep_research W q d t u h)) = Some stack.
Proof.
  rewrite deep_research_run. cbv zeta.
  pose proof (deep_research_try_run W q d t u h) as Hrun.
  assert (Htry : open_blocks stack (fst (deep_research_try W q d t u h))
                 = Some stack).
  { inversion Hrun as [e Happ Htr Ho|activities o Happ Hres Htr Ho].
    - reflexivity.
    - cbn [open_blocks]. rewrite open_blocks_app, open_blocks_activity_lines.
      reflexivity. }
  destruct (snd (deep_research_try W q d t u h)) as [v|e]; [exact Htry|].
  destruct (isinstance_Exception e); [|exact Htry].
  cbn [fst]. now rewrite open_blocks_app, Htry.
Qed.

Lemma run_turns_closes_its_spinners W r h stack :
  open_blocks stack (fst (run_turns (research_agent W) r h)) = Some stack.
Proof.
  revert h. induction r as [out|e|tool q d t u k IH]; intro h;
    try reflexivity.
  rewrite run_turns_call.
  destruct (String.eqb tool "deep_research"); [|reflexivity]. cbv zeta.
  pose proof (deep_research_closes_its_spinner W q d t u
                (h ++ [EvToolInvoke tool q d t u])%list stack) as H1.
  destruct (snd (deep_research W q d t u _)) as [v|e]; cbn [fst open_blocks].
  - now rewrite open_blocks_app, H1.
  - exact H1.
Qed.

Lemma run_research_process_closes_its_blocks W topic h stack :
  open_blocks stack (fst (run_research_process W topic h)) = Some stack.
Proof.
  destruct (run_research_process_body W topic h) as (h1 & tail & H).
  cbv zeta in H. destruct H as (-> & _ & Htail).
  cbn [open_blocks]. rewrite open_blocks_app, run_turns_closes_its_spinners.
  revert Htail. clear. revert stack.
  generalize (Spinner "Conducting initial research...") as b.
  assert (Hgen : forall (l : trace) (s1 s2 extra : list block),
             open_blocks s1 l = Some s2 ->
             open_blocks (s1 ++ extra) l = Some (s2 ++ extra)%list).
  { induction l as [|ev l IH]; intros s1 s2 extra H;
      cbn [open_blocks app] in *.
    - now injection H as ->.
    - destruct ev; try (now apply IH);
        try (now apply (IH (_ :: s1)));
        (destruct s1 as [|top below]; [discriminate|]; cbn [app];
         match goal with H : context [same_block ?b top] |- _ =>
           destruct (same_block b top); [now apply IH|discriminate] end). }
  intros b stack Htail. exact (Hgen tail [b] [] stack Htail).
Qed.

(** X11: when every failure of the research service and of the agent
    runtime is an instance of [Exception], a run of the button handler
    returns with every spinner and expander it opened closed again,
    innermost first: also when the research call fails inside the tool,
    and when an agent fails and the handler shows the error. *)
Theorem with_blocks_are_closed W topic clicked h :
  errors_only W ->
  open_blocks [] (fst (start_research W topic clicked h)) = Some []
  /\ snd (start_research W topic clicked h) = Ret tt.
Proof.
  intro Herr.
  destruct topic as [|c topic]; [now rewrite start_research_idle|].
  destruct clicked; [|split; reflexivity].
  rewrite start_research_clicked by discriminate. cbv zeta.
  pose proof (run_research_process_closes_its_blocks W (String c topic)
                (h ++ [EvButton "Start Research" false; EvEmpty])%list [])
    as Hrun.
  pose proof (run_research_process_raise W (String c topic)
                (h ++ [EvButton "Start Research" false; EvEmpty])%list)
    as Hraise.
  destruct (snd (run_research_process W (String c topic) _)) as [report|e].
  - cbn [fst snd open_blocks]. now rewrite open_blocks_app, Hrun.
  - assert (He : isinstance_Exception e = true).
    { destruct (Hraise e eq_refl) as [H|H]; [exact H|]. apply Herr. tauto. }
    rewrite He. cbn [fst snd open_blocks]. now rewrite open_blocks_app, Hrun.
Qed.

Lemma with_blocks_are_closed_witness :
  errors_only outage_world
  /\ open_blocks [] (fst (start_research outage_world "AI" true [])) = Some []
  /\ snd (start_research outage_world "AI" true []) = Ret tt.
Proof.
  split; [exact outage_world_errors_only|].
  exact (with_blocks_are_closed outage_world "AI" true []
           outage_world_errors_only).
Defined.

(** ** What the handler renders *)

Lemma replace_space c rest :
  replace_from O " " "_" (String c rest)
  = String (if Ascii.eqb c " " then "_"%char else c)
      (replace_from O " " "_" rest).
Proof.
  cbn [replace_from]. cbn [String.prefix].
  destruct (ascii_dec " " c) as [<-|Hne].
  - destruct rest; reflexivity.
  - destruct (Ascii.eqb c " ") eqn:Heq; [|reflexivity].
    apply Ascii.eqb_eq in Heq. congruence.
Qed.

Lemma replace_spaces topic : replace topic " " "_" = underscore_spaces topic.
Proof.
  unfold replace. induction topic as [|c rest IH]; [reflexivity|].
  rewrite replace_space. cbn [underscore_spaces]. now rewrite IH.
Qed.

Lemma underscore_spaces_length s :
  String.length (underscore_spaces s) = String.length s.
Proof.
  induction s; simpl; congruence.
Qed.

Lemma length_append (s t : string) :
  String.length (s ++ t) = (String.length s + String.length t)%nat.
Proof.
  induction s; simpl; congruence.
Qed.

Lemma underscore_spaces_no_space s suffix :
  contains suffix " " = false ->
  contains (underscore_spaces s ++ suffix) " " = false.
Proof.
  intro Hsuffix. induction s as [|c rest IH]; [exact Hsuffix|].
  cbn [underscore_spaces append contains String.prefix]. rewrite IH.
  rewrite orb_false_r.
  destruct (Ascii.eqb c " ") eqn:Heq.
  - reflexivity.
  - destruct (ascii_dec " " c) as [<-|]; [|reflexivity].
    rewrite Ascii.eqb_refl in Heq. discriminate.
Qed.

(** X12: for every topic, a download button that the handler renders
    offers the report under a file name that is the topic with each
    space replaced by an underscore, followed by "_report.md": the name
    has no space and is ten characters longer than the topic; the label
    and the content type are fixed. *)
Theorem download_file_name W topic clicked h label content file_name mime :
  In (EvDownloadButton label content file_name mime)
    (fst (start_research W topic clicked h)) ->
  file_name = underscore_spaces topic ++ "_report.md"
  /\ contains file_name " " = false
  /\ String.length file_name = (String.length topic + 10)%nat
  /\ label = "Download Report"
  /\ mime = "text/markdown".
Proof.
  intro Hin.
  assert (Hname : file_name = replace topic " " "_" ++ "_report.md"
                  /\ label = "Download Report" /\ mime = "text/markdown").
  { destruct topic as [|c topic].
    { rewrite start_research_idle in Hin. in_cases Hin. }
    destruct clicked; [|in_cases Hin].
    rewrite start_research_clicked in Hin by discriminate. cbv zeta in Hin.
    pose proof (run_research_process_shape W (String c topic)
                  (h ++ [EvButton "Start Research" false; EvEmpty])%list)
      as Hrun.
    assert (Hnot : ~ In (EvDownloadButton label content file_name mime)
                     (fst (run_research_process W (String c topic)
                             (h ++ [EvButton "Start Research" false; EvEmpty])%list))).
    { intro H. destruct (pipeline_event_kind _ _ _ _ Hrun H) as [H'|H'];
        discriminate H'. }
    destruct (snd (run_research_process W (String c topic) _)) as [report|e];
      [|destruct (isinstance_Exception e)]; cbn [fst] in Hin;
      destruct Hin as [Hin|[Hin|Hin]]; try discriminate;
      try contradiction;
      apply in_app_or in Hin as [Hin|Hin]; try contradiction.
    - destruct Hin as [Hin|[Hin|[Hin|[]]]]; try discriminate.
      injection Hin as <- _ <- <-. auto.
    - destruct Hin as [Hin|[]]. discriminate. }
  destruct Hname as (-> & -> & ->). rewrite replace_spaces.
  repeat split.
  - now apply underscore_spaces_no_space.
  - rewrite length_append, underscore_spaces_length. reflexivity.
Qed.

Lemma download_file_name_witness :
  In (EvDownloadButton "Download Report" (encode "enhanced report")
        "Latest_developments_in_AI_report.md" "text/markdown")
    (fst (start_research calm_world "Latest developments in AI" true []))
  /\ "Latest_developments_in_AI_report.md"
     = underscore_spaces "Latest developments in AI" ++ "_report.md"
  /\ contains "Latest_developments_in_AI_report.md" " " = false
  /\ String.length "Latest_developments_in_AI_report.md"
     = (String.length "Latest developments in AI" + 10)%nat
  /\ "Download Report" = "Download Report"
  /\ "text/markdown" = "text/markdown".
Proof.
  assert (Hin : In (EvDownloadButton "Download Report"
                      (encode "enhanced report")
                      "Latest_developments_in_AI_report.md" "text/markdown")
                  (fst (start_research calm_world "Latest developments in AI"
                          true []))).
  { vm_compute. tauto. }
  split; [exact Hin|].
  exact (download_file_name calm_world _ _ _ _ _ _ _ Hin).
Defined.

Lemma placeholder_content_app shown (l1 l2 : trace) :
  placeholder_content shown (l1 ++ l2)%list
  = placeholder_content (placeholder_content shown l1) l2.
Proof.
  revert shown. induction l1 as [|ev l1 IH]; intro shown; [reflexivity|].
  destruct ev; simpl; apply IH.
Qed.

(** X13: when the pipeline returns, the placeholder made by [st.empty()]
    ends up holding the report alone: the heading written into it first
    is replaced by the report. *)
Theorem placeholder_holds_report_alone W topic h report :
  topic <> "" ->
  In (EvRunnerReturn "elaboration_agent" report)
    (fst (start_research W topic true h)) ->
  placeholder_content None (fst (start_research W topic true h))
  = Some report.
Proof.
  intros Htopic. rewrite (start_research_clicked W topic h Htopic). cbv zeta.
  set (h1 := (h ++ [EvButton "Start Research" false; EvEmpty])%list).
  pose proof (run_research_process_shape W topic h1) as Hrun.
  destruct (snd (run_research_process W topic h1)) as [final|e].
  - intro Hin. in_cases Hin.
    apply (pipeline_run_final_report _ _ _ _ Hrun) in Hin.
    injection Hin as ->. cbn [fst placeholder_content].
    rewrite placeholder_content_app. reflexivity.
  - intro Hin. exfalso.
    destruct (isinstance_Exception e); in_cases Hin;
      apply (pipeline_run_final_report _ _ _ _ Hrun) in Hin; discriminate.
Qed.

Lemma placeholder_holds_report_alone_witness :
  placeholder_content None (fst (start_research calm_world "AI" true []))
  = Some "enhanced report".
Proof.
  apply (placeholder_holds_report_alone calm_world "AI" []).
  - discriminate.
  - vm_compute. tauto.
Defined.

Lemma start_research_raise W topic clicked h e :
  snd (start_research W topic clicked h) = Raise e ->
  isinstance_Exception e = false
  /\ (service_raises W e \/ runtime_raises W e).
Proof.
  destruct topic as [|c topic]; [now rewrite start_research_idle|].
  destruct clicked; [|discriminate].
  rewrite start_research_clicked by discriminate. cbv zeta.
  pose proof (run_research_process_raise W (String c topic)
                (h ++ [EvButton "Start Research" false; EvEmpty])%list) as Hraise.
  destruct (snd (run_research_process W (String c topic) _)) as [report|e'];
    [discriminate|].
  destruct (isinstance_Exception e') eqn:He; [discriminate|].
  cbn [snd]. intro H. injection H as <-. split; [exact He|].
  destruct (Hraise e' eq_refl) as [H|H]; [congruence|exact H].
Qed.

(** X14: the handler never lets an instance of [Exception] out: if it
    raises at all, the exception is none, and it was raised by the
    research service or by the agent runtime. *)
Theorem start_research_raises_no_Exception W topic clicked h e :
  snd (start_research W topic clicked h) = Raise e ->
  isinstance_Exception e = false
  /\ (service_raises W e \/ runtime_raises W e).
Proof.
  apply start_research_raise.
Qed.

Lemma start_research_raises_no_Exception_witness :
  isinstance_Exception (mkExn KeyboardInterrupt "") = false
  /\ (service_raises interrupted_world (mkExn KeyboardInterrupt "")
      \/ runtime_raises interrupted_world (mkExn KeyboardInterrupt "")).
Proof.
  apply (start_research_raises_no_Exception interrupted_world "AI" true []).
  reflexivity.
Defined.

(** ** The script *)

Lemma read_api_keys_present secrets openai_api_key firecrawl_api_key h :
  secrets "openai_api_key" = Ret openai_api_key ->
  secrets "firecrawl_api_key" = Ret firecrawl_api_key ->
  read_api_keys secrets h
  = ([PgSetDefaultOpenAIKey openai_api_key],
     Ret (openai_api_key, firecrawl_api_key)).
Proof.
  intros H1 H2.
  unfold read_api_keys, try_except_KeyError, sbind, slift, semit, sret.
  now rewrite H1, H2.
Qed.

Lemma read_api_keys_raises secrets e h :
  reading_raises secrets e ->
  read_api_keys secrets h
  = match exn_cls e with
    | KeyError =>
        ([ Core (EvError
                   "API keys not found in secrets. Please check your Streamlit settings.") ],
         Raise StopException)
    | _ => ([], Raise e)
    end.
Proof.
  intros [H1|(k & H1 & H2)];
    unfold read_api_keys, try_except_KeyError, sbind, slift, semit, sret;
    rewrite H1; [|rewrite H2]; cbn [exn_cls];
    destruct (exn_cls e); reflexivity.
Qed.

Lemma script_without_keys W secrets topic clicked h e :
  reading_raises secrets e ->
  script W secrets topic clicked h
  = match exn_cls e with
    | KeyError =>
        ((page_top
          ++ [ Core (EvError
                       "API keys not found in secrets. Please check your Streamlit settings.") ])%list,
         Raise StopException)
    | _ => (page_top, Raise e)
    end.
Proof.
  intro Hraises. unfold script, sbind at 1 2 3. cbn [semit].
  rewrite (read_api_keys_raises secrets e _ Hraises).
  destruct (exn_cls e); reflexivity.
Qed.

Lemma script_with_keys W secrets topic clicked h openai_api_key firecrawl_api_key :
  secrets "openai_api_key" = Ret openai_api_key ->
  secrets "firecrawl_api_key" = Ret firecrawl_api_key ->
  exists hh,
    let r := start_research (with_firecrawl_api_key W firecrawl_api_key)
               topic clicked hh in
    script W secrets topic clicked h
    = ((page_top ++ PgSetDefaultOpenAIKey openai_api_key :: page_header
        ++ map Core (fst r)
        ++ match snd r with
           | Ret _ => footer
           | Raise _ => []
           end)%list,
       snd r).
Proof.
  intros H1 H2. unfold script, sbind, column, run, semit. cbn [fst snd].
  rewrite (read_api_keys_present secrets _ _ _ H1 H2). cbn [snd].
  unfold st.markdown, emit. cbn [map app].
  match goal with
  | |- context [start_research ?W' topic clicked ?hh] =>
      exists hh; cbv zeta;
      destruct (start_research W' topic clicked hh) as [tr [[]|e]]
  end; cbn [fst snd]; unfold page_top, page_header, footer; simpl;
    rewrite ?app_nil_r; reflexivity.
Qed.

Section Clients.

Variable W : World.

Lemma deep_research_client_key q d t u h key :
  In (EvFirecrawlApp key) (fst (deep_research W q d t u h)) ->
  key = firecrawl_api_key W.
Proof.
  rewrite deep_research_run. cbv zeta.
  pose proof (deep_research_try_run W q d t u h) as Hrun.
  assert (Htry : In (EvFirecrawlApp key) (fst (deep_research_try W q d t u h)) ->
                 key = firecrawl_api_key W).
  { inversion Hrun as [e Happ Htr Ho|activities o Happ Hres Htr Ho];
      intro Hin; in_cases Hin; auto.
    apply in_map_iff in Hin as (a & Ha & _). discriminate. }
  destruct (snd (deep_research_try W q d t u h)) as [v|e]; [exact Htry|].
  destruct (isinstance_Exception e); [|exact Htry].
  cbn [fst]. intro Hin. apply in_app_or in Hin as [Hin|[Hin|[]]];
    [auto|discriminate].
Qed.

Lemma run_turns_client_key r h key :
  In (EvFirecrawlApp key) (fst (run_turns (research_agent W) r h)) ->
  key = firecrawl_api_key W.
Proof.
  revert h. induction r as [out|e|tool q d t u k IH]; intro h;
    try (intros []).
  rewrite run_turns_call.
  destruct (String.eqb tool "deep_research"); [|intros []]. cbv zeta.
  pose proof (deep_research_client_key q d t u
                (h ++ [EvToolInvoke tool q d t u])%list key) as H1.
  destruct (snd (deep_research W q d t u _)) as [v|e]; cbn [fst].
  - intros [Hin|Hin]; [discriminate|].
    apply in_app_or in Hin as [Hin|Hin]; [auto|eapply IH; eauto].
  - intros [Hin|Hin]; [discriminate|auto].
Qed.

Lemma start_research_client_key topic clicked h key :
  In (EvFirecrawlApp key) (fst (start_research W topic clicked h)) ->
  key = firecrawl_api_key W.
Proof.
  destruct topic as [|c topic].
  { rewrite start_research_idle. intro Hin. in_cases Hin. }
  destruct clicked; [|intro Hin; in_cases Hin].
  rewrite start_research_clicked by discriminate. cbv zeta.
  assert (Hrun : In (EvFirecrawlApp key)
                   (fst (run_research_process W (String c topic)
                           (h ++ [EvButton "Start Research" false; EvEmpty])%list)) ->
                 key = firecrawl_api_key W).
  { destruct (run_research_process_body W (String c topic)
                (h ++ [EvButton "Start Research" false; EvEmpty])%list)
      as (h1 & tail & H).
    cbv zeta in H. destruct H as (-> & Htail & _).
    intros [Hin|[Hin|Hin]]; try discriminate.
    apply in_app_or in Hin as [Hin|Hin]; [eapply run_turns_client_key; eauto|].
    rewrite Forall_forall in Htail. apply Htail in Hin. discriminate. }
  destruct (snd (run_research_process W (String c topic) _)) as [report|e];
    [|destruct (isinstance_Exception e)]; cbn [fst];
    intros [Hin|[Hin|Hin]]; try discriminate; auto;
    apply in_app_or in Hin as [Hin|Hin]; auto; in_cases Hin.
Qed.

End Clients.

Lemma errors_only_with_key W key :
  errors_only W -> errors_only (with_firecrawl_api_key W key).
Proof.
  intros Herr e H. apply Herr. exact H.
Qed.

(** X15: when a key is missing from the secrets (reading it is a
    [KeyError]), the script shows the error box and stops right there:
    after the page set-up nothing else is rendered, no key is installed,
    no input and no button are shown, and no service is contacted. *)
Theorem script_stops_on_missing_key W secrets research_topic clicked h e :
  reading_raises secrets e ->
  exn_cls e = KeyError ->
  script W secrets research_topic clicked h
  = ((page_top
      ++ [ Core (EvError
                   "API keys not found in secrets. Please check your Streamlit settings.") ])%list,
     Raise StopException).
Proof.
  intros Hraises Hcls.
  rewrite (script_without_keys W secrets research_topic clicked h e Hraises).
  now rewrite Hcls.
Qed.

(** X16: only a [KeyError] is handled when the keys are read.  Any other
    exception raised by reading them leaves the script as it is: no error
    box is shown and nothing after the page set-up is rendered. *)
Theorem script_passes_other_errors_on W secrets research_topic clicked h e :
  reading_raises secrets e ->
  exn_cls e <> KeyError ->
  script W secrets research_topic clicked h = (page_top, Raise e).
Proof.
  intros Hraises Hcls.
  rewrite (script_without_keys W secrets research_topic clicked h e Hraises).
  destruct (exn_cls e); congruence.
Qed.

(** X17: when both keys are read, the key installed for the agent
    runtime is the secret [openai_api_key] and no other, and every
    Firecrawl client made during the run of the script is given the
    secret [firecrawl_api_key]. *)
Theorem script_uses_the_secret_keys
    W secrets research_topic clicked h openai_api_key firecrawl_api_key :
  secrets "openai_api_key" = Ret openai_api_key ->
  secrets "firecrawl_api_key" = Ret firecrawl_api_key ->
  let tr := fst (script W secrets research_topic clicked h) in
  (forall key, In (PgSetDefaultOpenAIKey key) tr <-> key = openai_api_key)
  /\ (forall key, In (Core (EvFirecrawlApp key)) tr -> key = firecrawl_api_key).
Proof.
  intros H1 H2. cbv zeta.
  destruct (script_with_keys W secrets research_topic clicked h _ _ H1 H2)
    as [hh Hscript].
  cbv zeta in Hscript. rewrite Hscript. cbn [fst].
  set (r := start_research (with_firecrawl_api_key W firecrawl_api_key)
              research_topic clicked hh).
  assert (Hcore : forall ev, In ev (map Core (fst r)
                                    ++ match snd r with
                                       | Ret _ => footer
                                       | Raise _ => []
                                       end)%list ->
                  exists e, ev = Core e
                            /\ (In e (fst r) \/ exists body, e = EvMarkdown body)).
  { intros ev Hin. apply in_app_or in Hin as [Hin|Hin].
    - apply in_map_iff in Hin as (e & <- & Hin). eauto.
    - destruct (snd r); [|destruct Hin].
      destruct Hin as [<-|[<-|[]]]; eauto. }
  split.
  - intro key. split.
    + unfold page_top, page_header. intro Hin.
      apply in_app_or in Hin as [Hin|[Hin|Hin]].
      * in_cases Hin.
      * now injection Hin.
      * apply in_app_or in Hin as [Hin|Hin]; [in_cases Hin|].
        destruct (Hcore _ Hin) as (e & He & _). discriminate.
    + intros ->. apply in_or_app. right. now left.
  - intros key Hin. unfold page_top, page_header in Hin.
    apply in_app_or in Hin as [Hin|[Hin|Hin]]; [in_cases Hin|discriminate|].
    apply in_app_or in Hin as [Hin|Hin]; [in_cases Hin|].
    destruct (Hcore _ Hin) as (e & He & [He'|[body He']]).
    + injection He as <-.
      exact (start_research_client_key _ _ _ _ _ He').
    + subst e. discriminate.
Qed.

(** X18: when both keys are read and every failure of the services is an
    instance of [Exception], the script runs to its end whatever the
    topic and the click: the footer closes the page. *)
Theorem script_reaches_footer
    W secrets research_topic clicked h openai_api_key firecrawl_api_key :
  secrets "openai_api_key" = Ret openai_api_key ->
  secrets "firecrawl_api_key" = Ret firecrawl_api_key ->
  errors_only W ->
  exists before,
    script W secrets research_topic clicked h
    = ((before
        ++ [ Core (EvMarkdown "---");
             Core (EvMarkdown "Powered by GAZAI.ai") ])%list, Ret tt).
Proof.
  intros H1 H2 Herr.
  destruct (script_with_keys W secrets research_topic clicked h _ _ H1 H2)
    as [hh Hscript].
  cbv zeta in Hscript. rewrite Hscript.
  pose proof (start_research_raise
                (with_firecrawl_api_key W firecrawl_api_key)
                research_topic clicked hh) as Hraise.
  destruct (snd (start_research _ research_topic clicked hh)) as [[]|e].
  - eexists. rewrite !app_comm_cons, !app_assoc. reflexivity.
  - exfalso. destruct (Hraise e eq_refl) as [He Hsrc].
    apply (errors_only_with_key W firecrawl_api_key Herr) in Hsrc. congruence.
Qed.

(** ** The extra properties at concrete inputs *)

Lemma deep_research_on_incomplete_response_witness :
  snd (deep_research bare_world "AI" 3 180 10 [])
  = Ret (PDict [("error", PStr "'data'"); ("success", PBool false)]).
Proof.
  destruct (deep_research_on_incomplete_response bare_world "AI" 3 180 10 []
              [] (PDict []) eq_refl eq_refl) as (_ & Hdata & _).
  exact (Hdata [] eq_refl eq_refl).
Defined.

Lemma deep_research_without_client_witness :
  deep_research keyless_world "AI" 3 180 10 []
  = ([ EvFirecrawlApp "";
       EvError "Deep research error: No API key provided" ],
     Ret (failure_result (mkExn ValueError "No API key provided"))).
Proof.
  exact (deep_research_without_client keyless_world "AI" 3 180 10 []
           (mkExn ValueError "No API key provided") eq_refl eq_refl).
Defined.

Lemma each_agent_runs_once_witness :
  count (is_run_of "elaboration_agent")
    (fst (run_research_process calm_world "AI" [])) = 1%nat.
Proof.
  destruct (each_agent_runs_once calm_world "AI" []) as (_ & _ & Hiff).
  apply Hiff. exists "report". vm_compute. tauto.
Defined.

Lemma initial_report_shown_iff_returned_witness :
  In (EvMarkdown "report") (fst (run_research_process calm_world "AI" [])).
Proof.
  apply (initial_report_shown_iff_returned calm_world "AI" [] "report").
  vm_compute. tauto.
Defined.

Lemma pipeline_returns_enhanced_report_witness :
  In (EvRunnerReturn "elaboration_agent" "enhanced report")
    (fst (run_research_process calm_world "AI" [])).
Proof.
  apply (pipeline_returns_enhanced_report calm_world "AI" [] "enhanced report").
  reflexivity.
Defined.

Lemma second_stage_calls_no_tool_witness :
  let tr := fst (run_research_process outage_world "AI" []) in
  skipn 9 tr
  = [EvSpinnerExit "Enhancing the report with additional information..."]
  \/ exists enhanced,
       skipn 9 tr
       = [ EvRunnerReturn "elaboration_agent" enhanced;
           EvSpinnerExit
             "Enhancing the report with additional information..." ].
Proof.
  apply (second_stage_calls_no_tool outage_world "AI" []
           (firstn 8 (fst (run_research_process outage_world "AI" [])))
           (elaboration_input "AI" "report")).
  reflexivity.
Defined.

Lemma key_error_reading_raises :
  reading_raises openai_key_only
    (mkExn KeyError "st.secrets has no key firecrawl_api_key").
Proof.
  right. exists "sk-key". split; reflexivity.
Qed.

Lemma script_stops_on_missing_key_witness :
  script calm_world openai_key_only "AI" true []
  = ((page_top
      ++ [ Core (EvError
                   "API keys not found in secrets. Please check your Streamlit settings.") ])%list,
     Raise StopException).
Proof.
  exact (script_stops_on_missing_key calm_world openai_key_only "AI" true []
           _ key_error_reading_raises eq_refl).
Defined.

Lemma script_passes_other_errors_on_witness :
  script calm_world no_secrets_file "AI" true []
  = (page_top,
     Raise (mkExn (OtherException "FileNotFoundError") "No secrets files found.")).
Proof.
  apply (script_passes_other_errors_on calm_world no_secrets_file "AI" true []).
  - left. reflexivity.
  - discriminate.
Defined.

Lemma script_uses_the_secret_keys_witness :
  let tr := fst (script calm_world both_keys "AI" true []) in
  (forall key, In (PgSetDefaultOpenAIKey key) tr <-> key = "sk-key")
  /\ (forall key, In (Core (EvFirecrawlApp key)) tr -> key = "fc-key").
Proof.
  exact (script_uses_the_secret_keys calm_world both_keys "AI" true []
           "sk-key" "fc-key" eq_refl eq_refl).
Defined.

Lemma script_reaches_footer_witness :
  exists before,
    script timeout_world both_keys "AI" true []
    = ((before
        ++ [ Core (EvMarkdown "---");
             Core (EvMarkdown "Powered by GAZAI.ai") ])%list, Ret tt).
Proof.
  exact (script_reaches_footer timeout_world both_keys "AI" true []
           "sk-key" "fc-key" eq_refl eq_refl timeout_world_errors_only).
Defined.
